(** * The focus-state detector of the AI study assistant

    A shallow embedding of the class [AIStateDetector] (the detector that
    follows the page component in [src/app/page.tsx]) together with the two
    estimators it imports from [src/lib/utils.ts], [calculateEAR] and
    [calculateHeadPose].

    - A JavaScript [number] is an element of a carrier [num] with the
      operations the code uses ([JSNumber]).  Two carriers are given:
      [double], IEEE-754 binary64 (Rocq's primitive floats), which is what
      the program really computes with, and [exact], the rationals, for the
      statements of the specification that are about the formulas as
      arithmetic.
    - [Math.sqrt], [Math.pow], [Math.atan] and [Math.PI] are left to the
      host ([JSMath]): ECMAScript only asks for an approximation.
    - [Date.now()] is an argument [now : Z] (milliseconds) of every method
      that reads the clock.
    - A method that mutates [this] returns the new object.
    - A property read on [undefined] or [null] throws: the estimators and
      [analyzeFaceLandmarks] live in the [Completion] monad. *)

From Stdlib Require Import Ascii String DecimalString.
From Stdlib Require Import ZArith QArith Qminmax Qabs List Bool Lia Lqa.
From Stdlib Require Import Sorted.
From Stdlib Require Import Floats Uint63.
Import ListNotations.

Set Implicit Arguments.
Local Open Scope Z_scope.

(** ** JavaScript numbers *)

Declare Scope js_scope.
Delimit Scope js_scope with js.

(** The operations on [number] that the detector uses.  [js_lt a b] is
    [a < b]; [a > b] is [js_lt b a], as in ECMAScript. *)
Class JSNumber (num : Type) : Type := {
  lit : Q -> num;
  js_add : num -> num -> num;
  js_sub : num -> num -> num;
  js_mul : num -> num -> num;
  js_div : num -> num -> num;
  js_lt : num -> num -> bool;
  Math_abs : num -> num;
  Math_max : num -> num -> num;
  Math_min : num -> num -> num
}.

Arguments lit {num _} q%_Q.

Notation "a + b" := (js_add a b) : js_scope.
Notation "a - b" := (js_sub a b) : js_scope.
Notation "a * b" := (js_mul a b) : js_scope.
Notation "a / b" := (js_div a b) : js_scope.
Notation "a <? b" := (js_lt a b) : js_scope.
Notation "a >? b" := (js_lt b a) : js_scope.

(** The part of [Math] whose results ECMAScript leaves to the host. *)
Class JSMath (num : Type) : Type := {
  Math_sqrt : num -> num;
  Math_pow : num -> num -> num;
  Math_atan : num -> num;
  Math_PI : num
}.

(** ** Completions: a call returns normally or throws *)

Inductive JSError : Type := TypeError.

Inductive Completion (A : Type) : Type :=
| Normal (a : A)
| Throw (e : JSError).

Arguments Normal {A} a.
Arguments Throw {A} e.

Definition bind {A B : Type} (c : Completion A) (k : A -> Completion B)
  : Completion B :=
  match c with
  | Normal a => k a
  | Throw e => Throw e
  end.

Notation "x <- c ;; k" := (bind c (fun x => k))
  (at level 61, c at next level, right associativity).

(** ** The types of [src/types/index.ts] *)

Inductive FocusState : Type :=
| focused | distracted | relaxing | drowsy | unknown.

Definition FocusState_eqb (a b : FocusState) : bool :=
  match a, b with
  | focused, focused | distracted, distracted | relaxing, relaxing
  | drowsy, drowsy | unknown, unknown => true
  | _, _ => false
  end.

Section Detector.

Context {num : Type} {N : JSNumber num} {M : JSMath num}.

Local Open Scope js_scope.

(** A face landmark as MediaPipe delivers it (the code reads [x] and [y]). *)
Record Landmark : Type := { coord_x : num; coord_y : num }.

(** What an array slot can hold: nothing ([undefined], [null]) or a
    landmark object. *)
Inductive JSValue : Type :=
| JSUndefined
| JSNull
| JSObject (p : Landmark).

(** An array reference: [None] is a [null] or [undefined] argument. *)
Definition JSArray : Type := option (list JSValue).

(** [a[i]]: [undefined] out of range. *)
Definition index (a : list JSValue) (i : nat) : JSValue := nth i a JSUndefined.

(** [Boolean(v)], and [!v]. *)
Definition truthy (v : JSValue) : bool :=
  match v with
  | JSObject _ => true
  | _ => false
  end.

Definition falsy (v : JSValue) : bool := negb (truthy v).

(** [v.x] and [v.y]: a [TypeError] on [undefined] and [null]. *)
Definition prop_x (v : JSValue) : Completion num :=
  match v with
  | JSObject p => Normal (coord_x p)
  | _ => Throw TypeError
  end.

Definition prop_y (v : JSValue) : Completion num :=
  match v with
  | JSObject p => Normal (coord_y p)
  | _ => Throw TypeError
  end.

Record HeadPose : Type := { pitch : num; yaw : num; roll : num }.

Record AIDetectionResult : Type := {
  state : FocusState;
  confidence : num;
  headPose : HeadPose;
  eyeAspectRatio : num;
  landmarks : option (list JSValue)   (* the optional field [landmarks?] *)
}.

(** ** [src/lib/utils.ts] *)

(** [Math.sqrt(Math.pow(a.x - b.x, 2) + Math.pow(a.y - b.y, 2))], the
    pattern of the three distances of [calculateEAR]. *)
Definition distance (a b : JSValue) : Completion num :=
  ax <- prop_x a ;; bx <- prop_x b ;;
  ay <- prop_y a ;; by_ <- prop_y b ;;
  Normal (Math_sqrt (Math_pow (ax - bx) (lit 2) + Math_pow (ay - by_) (lit 2))).

Definition calculateEAR (eyeLandmarks : JSArray) : Completion num :=
  match eyeLandmarks with
  | None => Normal (lit 0)
  | Some e =>
      if (length e <? 6)%nat then Normal (lit 0)
      else
        vertical1 <- distance (index e 1) (index e 5) ;;
        vertical2 <- distance (index e 2) (index e 4) ;;
        horizontal <- distance (index e 0) (index e 3) ;;
        let ear := (vertical1 + vertical2) / (lit 2 * horizontal) in
        Normal ear
  end.

Definition zeroPose : HeadPose :=
  {| pitch := lit 0; yaw := lit 0; roll := lit 0 |}.

Definition calculateHeadPose (landmarks : JSArray) : Completion HeadPose :=
  match landmarks with
  | None => Normal zeroPose
  | Some l =>
      if (length l =? 0)%nat then Normal zeroPose
      else
        let nose := index l 1 in
        let leftEye := index l 33 in
        let rightEye := index l 263 in
        let chin := index l 175 in
        let forehead := index l 10 in
        if falsy nose || falsy leftEye || falsy rightEye
           || falsy chin || falsy forehead
        then Normal zeroPose
        else
          leftEye_x <- prop_x leftEye ;;
          rightEye_x <- prop_x rightEye ;;
          let eyeDistance := Math_abs (leftEye_x - rightEye_x) in
          nose_x <- prop_x nose ;;
          let noseToLeftEye := Math_abs (nose_x - leftEye_x) in
          let noseToRightEye := Math_abs (nose_x - rightEye_x) in
          let yaw :=
            if eyeDistance >? lit 0
            then ((noseToRightEye - noseToLeftEye) / eyeDistance) * lit 45
            else lit 0 in
          forehead_y <- prop_y forehead ;;
          chin_y <- prop_y chin ;;
          let verticalDistance := Math_abs (forehead_y - chin_y) in
          nose_y <- prop_y nose ;;
          let noseVerticalPosition := (nose_y - forehead_y) / verticalDistance in
          let pitch := (noseVerticalPosition - lit 0.4) * lit 90 in
          rightEye_y <- prop_y rightEye ;;
          leftEye_y <- prop_y leftEye ;;
          let eyeSlope := (rightEye_y - leftEye_y) / (rightEye_x - leftEye_x) in
          let roll := Math_atan eyeSlope * (lit 180 / Math_PI) in
          Normal {| pitch := Math_max (lit (-90)) (Math_min (lit 90) pitch);
                    yaw := Math_max (lit (-90)) (Math_min (lit 90) yaw);
                    roll := Math_max (lit (-45)) (Math_min (lit 45) roll) |}
  end.

(** ** The class [AIStateDetector] *)

(** The fields of an instance.  [stateTimers] is the [Map<FocusState, number>]
    in insertion order; the six thresholds are the [readonly] fields. *)
Record AIStateDetector : Type := {
  currentState : FocusState;
  stateStartTime : Z;
  stateTimers : list (FocusState * Z);
  DROWSY_EAR_THRESHOLD : num;
  DROWSY_TIME_THRESHOLD : Z;
  DISTRACTION_PITCH_THRESHOLD : num;
  DISTRACTION_TIME_THRESHOLD : Z;
  RELAXING_YAW_THRESHOLD : num;
  RELAXING_TIME_THRESHOLD : Z
}.

(** Assignments to the three mutable fields. *)
Definition set_currentState (this : AIStateDetector) (s : FocusState)
  : AIStateDetector :=
  {| currentState := s;
     stateStartTime := stateStartTime this;
     stateTimers := stateTimers this;
     DROWSY_EAR_THRESHOLD := DROWSY_EAR_THRESHOLD this;
     DROWSY_TIME_THRESHOLD := DROWSY_TIME_THRESHOLD this;
     DISTRACTION_PITCH_THRESHOLD := DISTRACTION_PITCH_THRESHOLD this;
     DISTRACTION_TIME_THRESHOLD := DISTRACTION_TIME_THRESHOLD this;
     RELAXING_YAW_THRESHOLD := RELAXING_YAW_THRESHOLD this;
     RELAXING_TIME_THRESHOLD := RELAXING_TIME_THRESHOLD this |}.

Definition set_stateStartTime (this : AIStateDetector) (t : Z)
  : AIStateDetector :=
  {| currentState := currentState this;
     stateStartTime := t;
     stateTimers := stateTimers this;
     DROWSY_EAR_THRESHOLD := DROWSY_EAR_THRESHOLD this;
     DROWSY_TIME_THRESHOLD := DROWSY_TIME_THRESHOLD this;
     DISTRACTION_PITCH_THRESHOLD := DISTRACTION_PITCH_THRESHOLD this;
     DISTRACTION_TIME_THRESHOLD := DISTRACTION_TIME_THRESHOLD this;
     RELAXING_YAW_THRESHOLD := RELAXING_YAW_THRESHOLD this;
     RELAXING_TIME_THRESHOLD := RELAXING_TIME_THRESHOLD this |}.

Definition set_stateTimers (this : AIStateDetector) (m : list (FocusState * Z))
  : AIStateDetector :=
  {| currentState := currentState this;
     stateStartTime := stateStartTime this;
     stateTimers := m;
     DROWSY_EAR_THRESHOLD := DROWSY_EAR_THRESHOLD this;
     DROWSY_TIME_THRESHOLD := DROWSY_TIME_THRESHOLD this;
     DISTRACTION_PITCH_THRESHOLD := DISTRACTION_PITCH_THRESHOLD this;
     DISTRACTION_TIME_THRESHOLD := DISTRACTION_TIME_THRESHOLD this;
     RELAXING_YAW_THRESHOLD := RELAXING_YAW_THRESHOLD this;
     RELAXING_TIME_THRESHOLD := RELAXING_TIME_THRESHOLD this |}.

(** [resetTimers()]: clears the map and reads the clock. *)
Definition resetTimers (this : AIStateDetector) (now : Z) : AIStateDetector :=
  set_stateStartTime (set_stateTimers this []) now.

(** The field initialisers, run before the constructor's body. *)
Definition fieldInitialisers : AIStateDetector :=
  {| currentState := unknown;
     stateStartTime := 0;
     stateTimers := [];
     DROWSY_EAR_THRESHOLD := lit 0.25;
     DROWSY_TIME_THRESHOLD := 25000;
     DISTRACTION_PITCH_THRESHOLD := lit 20;
     DISTRACTION_TIME_THRESHOLD := 15000;
     RELAXING_YAW_THRESHOLD := lit 30;
     RELAXING_TIME_THRESHOLD := 30000 |}.

(** [new AIStateDetector()] at clock reading [now]. *)
Definition new_AIStateDetector (now : Z) : AIStateDetector :=
  resetTimers fieldInitialisers now.

Definition determineImmediateState (this : AIStateDetector)
    (headPose : HeadPose) (eyeAspectRatio : num) : FocusState :=
  if eyeAspectRatio <? DROWSY_EAR_THRESHOLD this then drowsy
  else if pitch headPose >? DISTRACTION_PITCH_THRESHOLD this then distracted
  else if (Math_abs (yaw headPose) >? RELAXING_YAW_THRESHOLD this)
          || (pitch headPose <? lit (-15))
       then relaxing
  else focused.

Definition getPreviousValidState (this : AIStateDetector) : FocusState :=
  focused.

(** [applyTimeBasedLogic(immediateState)]: the emitted state and the
    mutated detector. *)
Definition applyTimeBasedLogic (this : AIStateDetector)
    (immediateState : FocusState) (now : Z) : FocusState * AIStateDetector :=
  let currentTime := now in
  let this :=
    if negb (FocusState_eqb immediateState (currentState this))
    then set_currentState (set_stateStartTime this currentTime) immediateState
    else this in
  let stateTime := (currentTime - stateStartTime this)%Z in
  (match immediateState with
   | drowsy =>
       if (stateTime >=? DROWSY_TIME_THRESHOLD this)%Z
       then drowsy else getPreviousValidState this
   | distracted =>
       if (stateTime >=? DISTRACTION_TIME_THRESHOLD this)%Z
       then distracted else getPreviousValidState this
   | relaxing =>
       if (stateTime >=? RELAXING_TIME_THRESHOLD this)%Z
       then relaxing else getPreviousValidState this
   | focused => focused
   | unknown => unknown
   end, this).

Definition calculateConfidence (this : AIStateDetector)
    (headPose : HeadPose) (eyeAspectRatio : num) (state : FocusState) : num :=
  let confidence :=
    match state with
    | drowsy =>
        Math_max (lit 0.1) (lit 1 - (eyeAspectRatio / DROWSY_EAR_THRESHOLD this))
    | distracted =>
        let pitchFactor := Math_min (pitch headPose / lit 45) (lit 1) in
        Math_max (lit 0.3) pitchFactor
    | relaxing =>
        let yawFactor := Math_min (Math_abs (yaw headPose) / lit 60) (lit 1) in
        Math_max (lit 0.3) yawFactor
    | focused =>
        let pitchScore := lit 1 - Math_abs (pitch headPose) / lit 45 in
        let yawScore := lit 1 - Math_abs (yaw headPose) / lit 60 in
        let earScore :=
          if eyeAspectRatio >? DROWSY_EAR_THRESHOLD this
          then lit 1 else lit 0 in
        (pitchScore + yawScore + earScore) / lit 3
    | unknown => lit 0.1
    end in
  Math_max (lit 0.1) (Math_min (lit 1.0) confidence).

Definition getCurrentState (this : AIStateDetector) : FocusState :=
  currentState this.

Definition reset (this : AIStateDetector) (now : Z) : AIStateDetector :=
  resetTimers (set_currentState this unknown) now.

Definition leftEyeIndices : list nat := [33; 7; 163; 144; 145; 153]%nat.
Definition rightEyeIndices : list nat := [362; 382; 381; 380; 374; 373]%nat.

(** The result of the guard at the top of [analyzeFaceLandmarks]. *)
Definition noFaceResult : AIDetectionResult :=
  {| state := unknown;
     confidence := lit 0;
     headPose := zeroPose;
     eyeAspectRatio := lit 0;
     landmarks := None |}.

(** [analyzeFaceLandmarks], the statements after the measurements
    ([determineImmediateState], [applyTimeBasedLogic], [calculateConfidence]
    and the returned object): the specification's
    [classify(measurement, now)]. *)
Definition classify (this : AIStateDetector) (headPose : HeadPose)
    (avgEAR : num) (l : list JSValue) (now : Z)
  : AIDetectionResult * AIStateDetector :=
  let immediateState := determineImmediateState this headPose avgEAR in
  let (finalState, this) := applyTimeBasedLogic this immediateState now in
  let confidence := calculateConfidence this headPose avgEAR immediateState in
  ({| state := finalState;
      confidence := confidence;
      headPose := headPose;
      eyeAspectRatio := avgEAR;
      landmarks := Some l |}, this).

(** [analyzeFaceLandmarks], the measurements: the head pose and the mean of
    the two eye aspect ratios. *)
Definition measure (l : list JSValue) : Completion (HeadPose * num) :=
  headPose <- calculateHeadPose (Some l) ;;
  let leftEyeLandmarks := filter truthy (map (index l) leftEyeIndices) in
  let rightEyeLandmarks := filter truthy (map (index l) rightEyeIndices) in
  leftEAR <- calculateEAR (Some leftEyeLandmarks) ;;
  rightEAR <- calculateEAR (Some rightEyeLandmarks) ;;
  let avgEAR := (leftEAR + rightEAR) / lit 2 in
  Normal (headPose, avgEAR).

Definition analyzeFaceLandmarks (this : AIStateDetector) (landmarks : JSArray)
    (now : Z) : Completion (AIDetectionResult * AIStateDetector) :=
  match landmarks with
  | None => Normal (noFaceResult, this)
  | Some l =>
      if (length l =? 0)%nat then Normal (noFaceResult, this)
      else
        m <- measure l ;;
        Normal (classify this (fst m) (snd m) l now)
  end.

(** Two detectors with the same six thresholds. *)
Definition same_config (a b : AIStateDetector) : Prop :=
  DROWSY_EAR_THRESHOLD a = DROWSY_EAR_THRESHOLD b /\
  DROWSY_TIME_THRESHOLD a = DROWSY_TIME_THRESHOLD b /\
  DISTRACTION_PITCH_THRESHOLD a = DISTRACTION_PITCH_THRESHOLD b /\
  DISTRACTION_TIME_THRESHOLD a = DISTRACTION_TIME_THRESHOLD b /\
  RELAXING_YAW_THRESHOLD a = RELAXING_YAW_THRESHOLD b /\
  RELAXING_TIME_THRESHOLD a = RELAXING_TIME_THRESHOLD b.

(** ** Sequences of calls *)

(** A measured frame handed to [classify], with the clock reading of the
    call. *)
Record Frame : Type := {
  frame_headPose : HeadPose;
  frame_avgEAR : num;
  frame_landmarks : list JSValue;
  frame_now : Z
}.

(** The candidate the immediate-state rule gives for a frame. *)
Definition candidate (this : AIStateDetector) (f : Frame) : FocusState :=
  determineImmediateState this (frame_headPose f) (frame_avgEAR f).

(** Consecutive [classify] calls on one detector: the result of each call
    and the detector as the call leaves it. *)
Fixpoint classifyAll (this : AIStateDetector) (frames : list Frame)
  : list (AIDetectionResult * AIStateDetector) :=
  match frames with
  | [] => []
  | f :: rest =>
      let rd := classify this (frame_headPose f) (frame_avgEAR f)
                  (frame_landmarks f) (frame_now f) in
      rd :: classifyAll (snd rd) rest
  end.

(** The hold duration configured for a candidate. *)
Definition holdMs (this : AIStateDetector) (c : FocusState) : Z :=
  match c with
  | drowsy => DROWSY_TIME_THRESHOLD this
  | distracted => DISTRACTION_TIME_THRESHOLD this
  | relaxing => RELAXING_TIME_THRESHOLD this
  | focused | unknown => 0
  end.

(** A call of one of the two public methods that touch the detector. *)
Inductive Call : Type :=
| Analyze (landmarks : JSArray)
| Reset.

Definition call (this : AIStateDetector) (c : Call) (now : Z)
  : Completion AIStateDetector :=
  match c with
  | Analyze landmarks =>
      r <- analyzeFaceLandmarks this landmarks now ;; Normal (snd r)
  | Reset => Normal (reset this now)
  end.

(** The detectors a sequence of calls goes through, each call with its clock
    reading. *)
Fixpoint history (this : AIStateDetector) (calls : list (Call * Z))
  : Completion (list AIStateDetector) :=
  match calls with
  | [] => Normal []
  | (c, now) :: rest =>
      this' <- call this c now ;;
      states <- history this' rest ;;
      Normal (this' :: states)
  end.

End Detector.

Arguments Landmark num : clear implicits.
Arguments JSValue num : clear implicits.
Arguments JSArray num : clear implicits.
Arguments HeadPose num : clear implicits.
Arguments AIDetectionResult num : clear implicits.
Arguments AIStateDetector num : clear implicits.
Arguments Frame num : clear implicits.
Arguments Call num : clear implicits.

(** ** The two carriers *)

(** *** IEEE-754 binary64 *)

Definition double_of_Z (z : Z) : float :=
  match z with
  | Z0 => PrimFloat.zero
  | Zpos p => PrimFloat.of_uint63 (Uint63.of_pos p)
  | Zneg p => PrimFloat.opp (PrimFloat.of_uint63 (Uint63.of_pos p))
  end.

(** A decimal literal: the double nearest to it (the quotient of two exactly
    represented integers, correctly rounded). *)
Definition double_lit (q : Q) : float :=
  PrimFloat.div (double_of_Z (Qnum q)) (double_of_Z (Zpos (Qden q))).

(** [Math.max] and [Math.min] of two numbers: [NaN] if either is, and [-0]
    below [+0]. *)
Definition double_max (a b : float) : float :=
  if PrimFloat.is_nan a || PrimFloat.is_nan b then PrimFloat.nan
  else if PrimFloat.ltb a b then b
  else if PrimFloat.ltb b a then a
  else if PrimFloat.get_sign a then b else a.

Definition double_min (a b : float) : float :=
  if PrimFloat.is_nan a || PrimFloat.is_nan b then PrimFloat.nan
  else if PrimFloat.ltb a b then a
  else if PrimFloat.ltb b a then b
  else if PrimFloat.get_sign a then a else b.

#[export] Instance double : JSNumber float := {
  lit := double_lit;
  js_add := PrimFloat.add;
  js_sub := PrimFloat.sub;
  js_mul := PrimFloat.mul;
  js_div := PrimFloat.div;
  js_lt := PrimFloat.ltb;
  Math_abs := PrimFloat.abs;
  Math_max := double_max;
  Math_min := double_min
}.

(** *** Exact rational arithmetic (no rounding, no [NaN], no infinities) *)

Definition Qltb (a b : Q) : bool := negb (Qle_bool b a).

#[export] Instance exact : JSNumber Q := {
  lit := fun q => q;
  js_add := Qplus;
  js_sub := Qminus;
  js_mul := Qmult;
  js_div := Qdiv;
  js_lt := Qltb;
  Math_abs := Qabs;
  Math_max := Qmax;
  Math_min := Qmin
}.

(** The interval test of the confidence score on doubles. *)
Definition in_confidence_range (c : float) : bool :=
  PrimFloat.leb (lit 0.1) c && PrimFloat.leb c (lit 1.0).

(** ** Sample inputs *)

Definition sampleDetector : AIStateDetector float := new_AIStateDetector 0.

Definition sampleLandmarks : list (JSValue float) :=
  [JSObject {| coord_x := lit 0.5; coord_y := lit 0.5 |}].

(** A frame with the given pitch, yaw and eye aspect ratio at time [now]. *)
Definition sampleFrame (p y e : Q) (now : Z) : Frame float :=
  {| frame_headPose := {| pitch := lit p; yaw := lit y; roll := lit 0 |};
     frame_avgEAR := lit e;
     frame_landmarks := sampleLandmarks;
     frame_now := now |}.

(** Closed eyes (eye aspect ratio 0.1) at 1000 ms, 25999 ms and 26000 ms. *)
Definition sampleFrames : list (Frame float) :=
  [sampleFrame 0 0 0.1 1000; sampleFrame 0 0 0.1 25999;
   sampleFrame 0 0 0.1 26000].

(** The scenario of the specification: a neutral frame, the head down
    (pitch 25) from 0 ms to 15000 ms, then closed eyes (eye aspect ratio
    0.10) from 15001 ms to 40001 ms. *)
Definition scenarioFrames : list (Frame float) :=
  [sampleFrame 0 0 0.35 0; sampleFrame 25 0 0.35 0;
   sampleFrame 25 0 0.35 14999; sampleFrame 25 0 0.35 15000;
   sampleFrame 0 0 0.10 15001; sampleFrame 0 0 0.10 40001].

(** Four calls on a new detector, with their clock readings. *)
Definition sampleCalls : list (Call float * Z) :=
  [(Analyze (Some sampleLandmarks), 10); (Analyze None, 20);
   (Reset, 30); (Analyze (Some sampleLandmarks), 30)].

(** ** The page component [Home] of [src/app/page.tsx] *)

(** [a.slice(-k)]: the last [k] elements, all of them when there are
    fewer. *)
Definition slice_last {A : Type} (k : nat) (a : list A) : list A :=
  skipn (length a - k) a.

Section Home.

Context {num : Type} {N : JSNumber num}.

(** An element of [detectionHistory]. *)
Record HistoryEntry : Type := {
  history_state : FocusState;
  history_timestamp : Z;
  history_confidence : num
}.

(** The three pieces of React state of the component. *)
Record HomeState : Type := {
  currentDetectionResult : AIDetectionResult num;
  isDetectionActive : bool;
  detectionHistory : list HistoryEntry
}.

(** The object both [useState] and [toggleDetection] write down. *)
Definition unknownDetectionResult : AIDetectionResult num :=
  {| state := unknown;
     confidence := lit 0;
     headPose := {| pitch := lit 0; yaw := lit 0; roll := lit 0 |};
     eyeAspectRatio := lit 0;
     landmarks := None |}.

Definition Home_initial : HomeState :=
  {| currentDetectionResult := unknownDetectionResult;
     isDetectionActive := false;
     detectionHistory := [] |}.

(** [handleStateChange(result)], with the reading of [Date.now()]. *)
Definition handleStateChange (s : HomeState) (result : AIDetectionResult num)
    (now : Z) : HomeState :=
  {| currentDetectionResult := result;
     isDetectionActive := isDetectionActive s;
     detectionHistory :=
       slice_last 50 (detectionHistory s)
       ++ [ {| history_state := state result;
               history_timestamp := now;
               history_confidence := confidence result |} ] |}.

Definition toggleDetection (s : HomeState) : HomeState :=
  if negb (isDetectionActive s)
  then {| currentDetectionResult := unknownDetectionResult;
          isDetectionActive := negb (isDetectionActive s);
          detectionHistory := [] |}
  else {| currentDetectionResult := currentDetectionResult s;
          isDetectionActive := negb (isDetectionActive s);
          detectionHistory := detectionHistory s |}.

(** What can happen to the component: a detection arrives, or the button
    is pressed. *)
Inductive HomeEvent : Type :=
| StateChanged (result : AIDetectionResult num) (now : Z)
| DetectionToggled.

Definition Home_step (s : HomeState) (e : HomeEvent) : HomeState :=
  match e with
  | StateChanged result now => handleStateChange s result now
  | DetectionToggled => toggleDetection s
  end.

Definition Home_run (s : HomeState) (events : list HomeEvent) : HomeState :=
  fold_left Home_step events s.

(** ** [completeCalibration] of the component [DetectionCalibration] *)

(** A number from a [length]. *)
Definition js_of_nat (n : nat) : num := lit (inject_Z (Z.of_nat n)).

(** An element of [calibrationData]; [expected] is one of the state names of
    [calibrationSteps]. *)
Record CalibrationEntry : Type := {
  calibration_step : nat;
  calibration_expected : FocusState;
  calibration_actual : FocusState;
  calibration_headPose : HeadPose num;
  calibration_eyeAspectRatio : num;
  calibration_confidence : num
}.

Definition calibration_matches (calibrationData : list CalibrationEntry)
  : nat :=
  length (filter (fun data =>
                    FocusState_eqb (calibration_actual data)
                      (calibration_expected data))
            calibrationData).

(** The value handed to [onCalibrationComplete]. *)
Definition completeCalibration (calibrationData : list CalibrationEntry)
  : bool :=
  let accuracy :=
    (js_of_nat (calibration_matches calibrationData)
     / js_of_nat (length calibrationData))%js in
  let isWellCalibrated := (accuracy >? lit 0.6)%js in
  isWellCalibrated.

End Home.

Arguments HistoryEntry num : clear implicits.
Arguments HomeState num : clear implicits.
Arguments HomeEvent num : clear implicits.
Arguments CalibrationEntry num : clear implicits.

(** ** [formatTime] of [src/lib/utils.ts], on whole seconds *)

(** [n.toString()] of an integer. *)
Definition Number_toString (n : Z) : string :=
  NilZero.string_of_int (Z.to_int n).

(** [s.padStart(targetLength, c)] for a one-character pad. *)
Definition padStart (targetLength : nat) (c : ascii) (s : string) : string :=
  String.append
    (string_of_list_ascii (repeat c (targetLength - String.length s))) s.

(** [Math.floor(seconds / 60)] is the floor quotient and [seconds % 60] the
    remainder with the sign of [seconds]. *)
Definition formatTime (seconds : Z) : string :=
  let mins := (seconds / 60)%Z in
  let secs := Z.rem seconds 60 in
  String.append (padStart 2 "0" (Number_toString mins))
    (String.append ":" (padStart 2 "0" (Number_toString secs))).

(** The character of a decimal digit. *)
Definition digit (d : Z) : ascii := ascii_of_nat (48 + Z.to_nat d).

(** ** Intervals of doubles *)

Definition double_between (lo hi x : float) : bool :=
  PrimFloat.leb lo x && PrimFloat.leb x hi.

(** ** More sample inputs *)

(** Six eye landmarks, and six slots whose third is [undefined]. *)
Definition sampleEye : list (JSValue float) :=
  repeat (JSObject {| coord_x := lit 0.5; coord_y := lit 0.5 |}) 6.

Definition sampleEyeWithHole : list (JSValue float) :=
  [JSObject {| coord_x := lit 0.5; coord_y := lit 0.5 |};
   JSObject {| coord_x := lit 0.5; coord_y := lit 0.5 |};
   JSUndefined;
   JSObject {| coord_x := lit 0.5; coord_y := lit 0.5 |};
   JSObject {| coord_x := lit 0.5; coord_y := lit 0.5 |};
   JSObject {| coord_x := lit 0.5; coord_y := lit 0.5 |}].

(** Two detections, at 10 ms and 20 ms. *)
Definition sampleDetections : list (AIDetectionResult float * Z) :=
  [(fst (classify sampleDetector (frame_headPose (sampleFrame 0 0 0.35 10))
           (frame_avgEAR (sampleFrame 0 0 0.35 10)) sampleLandmarks 10), 10%Z);
   (unknownDetectionResult, 20%Z)].

(** A calibration record with the expected and the detected state. *)
Definition sampleCalibrationEntry (i : nat) (e a : FocusState)
  : CalibrationEntry float :=
  {| calibration_step := i;
     calibration_expected := e;
     calibration_actual := a;
     calibration_headPose := zeroPose;
     calibration_eyeAspectRatio := lit 0.3;
     calibration_confidence := lit 0.5 |}.

(** The five steps of a calibration, the last one misdetected. *)
Definition sampleCalibration : list (CalibrationEntry float) :=
  [sampleCalibrationEntry 0 focused focused;
   sampleCalibrationEntry 1 distracted distracted;
   sampleCalibrationEntry 2 relaxing relaxing;
   sampleCalibrationEntry 3 relaxing relaxing;
   sampleCalibrationEntry 4 drowsy focused].

(** * Properties *)

Unset Implicit Arguments.

(** ** The literals of the code are the doubles JavaScript reads them as *)

Example double_lit_examples :
  (lit 0.25 : float) = 0.25%float /\
  (lit (-15) : float) = (-15)%float /\
  (lit 45 : float) = 45%float /\
  (lit 1.0 : float) = 1%float /\
  PrimFloat.eqb (lit 0.1) 0x1.999999999999ap-4%float = true /\
  PrimFloat.eqb (lit 0.3) 0x1.3333333333333p-2%float = true /\
  PrimFloat.eqb (lit 0.4) 0x1.999999999999ap-2%float = true.
Proof. repeat split; vm_compute; reflexivity. Qed.

(** The last element of a non-empty list does not depend on the default. *)
Lemma last_cons_default {A : Type} (xs : list A) : forall x d,
  last (x :: xs) d = last xs x.
Proof.
  induction xs as [|y ys IH]; intros x d; [reflexivity|].
  change (last (x :: y :: ys) d) with (last (y :: ys) d).
  now rewrite !IH.
Qed.

Section DetectorFacts.

Context {num : Type} {N : JSNumber num}.

Local Open Scope js_scope.

Implicit Types (this d : AIStateDetector num) (hp : HeadPose num)
  (ear : num) (l : list (JSValue num)) (now : Z) (c : FocusState).

(** *** Equality of focus states *)

Lemma FocusState_eqb_eq c c' : FocusState_eqb c c' = true <-> c = c'.
Proof. destruct c, c'; simpl; split; congruence. Qed.

Lemma FocusState_eqb_refl c : FocusState_eqb c c = true.
Proof. now apply FocusState_eqb_eq. Qed.

Lemma FocusState_eqb_neq c c' : FocusState_eqb c c' = false <-> c <> c'.
Proof. destruct c, c'; simpl; split; congruence. Qed.

(** *** The estimators never throw *)

Section Estimators.

Context {M : JSMath num}.

Lemma prop_x_truthy (v : JSValue num) :
  truthy v = true -> exists a, prop_x v = Normal a.
Proof. destruct v; simpl; try discriminate; eauto. Qed.

Lemma prop_y_truthy (v : JSValue num) :
  truthy v = true -> exists a, prop_y v = Normal a.
Proof. destruct v; simpl; try discriminate; eauto. Qed.

Lemma distance_truthy (a b : JSValue num) :
  truthy a = true -> truthy b = true -> exists r, distance a b = Normal r.
Proof.
  intros Ha Hb. unfold distance.
  destruct (prop_x_truthy a Ha) as [ax ->], (prop_x_truthy b Hb) as [bx ->].
  destruct (prop_y_truthy a Ha) as [ay ->], (prop_y_truthy b Hb) as [by_ ->].
  simpl. eauto.
Qed.

(** Every slot of a filtered array that is in range holds an object. *)
Lemma index_filter_truthy l (i : nat) :
  (i < length (filter truthy l))%nat ->
  truthy (index (filter truthy l) i) = true.
Proof.
  intros Hi. unfold index.
  assert (In (nth i (filter truthy l) (@JSUndefined num)) (filter truthy l)) as Hin
    by now apply nth_In.
  now apply filter_In in Hin.
Qed.

(** [calculateEAR] after [.filter(Boolean)]: the length test guards the six
    property reads. *)
Lemma calculateEAR_filter_normal l :
  exists r, calculateEAR (Some (filter truthy l)) = Normal r.
Proof.
  unfold calculateEAR.
  destruct (Nat.ltb_spec (length (filter truthy l)) 6) as [Hlt | Hge]; eauto.
  assert (forall i, (i < 6)%nat -> truthy (index (filter truthy l) i) = true) as T
    by (intros i Hi; apply index_filter_truthy; lia).
  destruct (distance_truthy _ _ (T 1%nat ltac:(lia)) (T 5%nat ltac:(lia))) as [v1 ->].
  destruct (distance_truthy _ _ (T 2%nat ltac:(lia)) (T 4%nat ltac:(lia))) as [v2 ->].
  destruct (distance_truthy _ _ (T 0%nat ltac:(lia)) (T 3%nat ltac:(lia))) as [h ->].
  simpl. eauto.
Qed.

(** [calculateHeadPose]: the test on the five landmarks guards the reads. *)
Lemma calculateHeadPose_normal (a : JSArray num) :
  exists hp, calculateHeadPose a = Normal hp.
Proof.
  unfold calculateHeadPose. destruct a as [l|]; eauto.
  destruct (length l =? 0)%nat; eauto.
  destruct (falsy (index l 1) || falsy (index l 33) || falsy (index l 263)
            || falsy (index l 175) || falsy (index l 10)) eqn:G; eauto.
  repeat (apply orb_false_elim in G; destruct G as [G ?]).
  unfold falsy in *.
  repeat match goal with
         | H : negb (truthy ?v) = false |- _ =>
             apply negb_false_iff in H
         end.
  repeat match goal with
         | H : truthy ?v = true |- _ =>
             let Ex := fresh "Ex" in let Ey := fresh "Ey" in
             destruct (prop_x_truthy v H) as [? Ex];
             destruct (prop_y_truthy v H) as [? Ey];
             rewrite ?Ex, ?Ey; clear H
         end.
  simpl. eauto.
Qed.

Lemma measure_normal l : exists hp ear, measure l = Normal (hp, ear).
Proof.
  unfold measure.
  destruct (calculateHeadPose_normal (Some l)) as [hp ->].
  destruct (calculateEAR_filter_normal (map (index l) leftEyeIndices)) as [le ->].
  destruct (calculateEAR_filter_normal (map (index l) rightEyeIndices)) as [re ->].
  simpl. eauto.
Qed.

(** [analyzeFaceLandmarks] is the guard or a [classify] call on what was
    measured. *)
Lemma analyzeFaceLandmarks_noFace this now :
  analyzeFaceLandmarks this None now = Normal (noFaceResult, this) /\
  analyzeFaceLandmarks this (Some []) now = Normal (noFaceResult, this).
Proof. split; reflexivity. Qed.

Lemma analyzeFaceLandmarks_classify this (v : JSValue num) l now :
  exists hp ear,
    measure (v :: l) = Normal (hp, ear) /\
    analyzeFaceLandmarks this (Some (v :: l)) now
    = Normal (classify this hp ear (v :: l) now).
Proof.
  destruct (measure_normal (v :: l)) as (hp & ear & E).
  exists hp, ear. split; [exact E|].
  unfold analyzeFaceLandmarks. simpl length. simpl Nat.eqb. cbv iota.
  rewrite E. reflexivity.
Qed.

End Estimators.

(** *** What a call does to the fields *)

Lemma same_config_refl d : same_config d d.
Proof. repeat split. Qed.

Lemma same_config_trans d1 d2 d3 :
  same_config d1 d2 -> same_config d2 d3 -> same_config d1 d3.
Proof. unfold same_config. intuition congruence. Qed.

Lemma determineImmediateState_config d d' hp ear :
  same_config d d' ->
  determineImmediateState d' hp ear = determineImmediateState d hp ear.
Proof.
  intros (E1 & _ & E3 & _ & E5 & _). unfold determineImmediateState.
  now rewrite E1, E3, E5.
Qed.

Lemma holdMs_config d d' c : same_config d d' -> holdMs d' c = holdMs d c.
Proof. intros (_ & E2 & _ & E4 & _ & E6). destruct c; simpl; congruence. Qed.

(** The detector [applyTimeBasedLogic] leaves behind: the timer restarts
    exactly when the candidate is not the stored state. *)
Lemma applyTimeBasedLogic_detector this c now :
  snd (applyTimeBasedLogic this c now)
  = if FocusState_eqb c (currentState this) then this
    else set_currentState (set_stateStartTime this now) c.
Proof.
  unfold applyTimeBasedLogic.
  destruct (FocusState_eqb c (currentState this)); reflexivity.
Qed.

Lemma applyTimeBasedLogic_fields this c now :
  let d := snd (applyTimeBasedLogic this c now) in
  currentState d = c /\
  (c <> currentState this -> stateStartTime d = now) /\
  (c = currentState this -> stateStartTime d = stateStartTime this) /\
  stateTimers d = stateTimers this /\
  same_config this d.
Proof.
  cbv zeta. rewrite applyTimeBasedLogic_detector.
  destruct (FocusState_eqb c (currentState this)) eqn:E.
  - apply FocusState_eqb_eq in E.
    repeat split; auto; intros; congruence.
  - apply FocusState_eqb_neq in E.
    repeat split; auto; intros; simpl; congruence.
Qed.

(** The state [applyTimeBasedLogic] emits, read off the detector it leaves
    behind: the candidate once it was held for its hold duration, [focused]
    before that. *)
Lemma applyTimeBasedLogic_emits this c now :
  let (emitted, d) := applyTimeBasedLogic this c now in
  (c = focused -> emitted = focused) /\
  (c = unknown -> emitted = unknown) /\
  (c <> focused -> c <> unknown ->
   (now - stateStartTime d < holdMs d c)%Z -> emitted = focused) /\
  ((holdMs d c <= now - stateStartTime d)%Z -> emitted = c).
Proof.
  unfold applyTimeBasedLogic, getPreviousValidState.
  set (d := if negb (FocusState_eqb c (currentState this)) then _ else _).
  destruct c; simpl holdMs;
    repeat split; intros; try congruence;
    match goal with
    | |- context [(?a >=? ?b)%Z] =>
        destruct (Z.geb_spec a b); try reflexivity; lia
    | _ => idtac
    end.
Qed.

Lemma classify_detector this hp ear l now :
  snd (classify this hp ear l now)
  = snd (applyTimeBasedLogic this (determineImmediateState this hp ear) now).
Proof.
  unfold classify.
  destruct (applyTimeBasedLogic this (determineImmediateState this hp ear) now).
  reflexivity.
Qed.

Lemma classify_state this hp ear l now :
  state (fst (classify this hp ear l now))
  = fst (applyTimeBasedLogic this (determineImmediateState this hp ear) now).
Proof.
  unfold classify.
  destruct (applyTimeBasedLogic this (determineImmediateState this hp ear) now).
  reflexivity.
Qed.

(** The immediate-state rule never answers [unknown]. *)
Lemma determineImmediateState_known this hp ear :
  determineImmediateState this hp ear <> unknown.
Proof.
  unfold determineImmediateState.
  repeat match goal with |- context [if ?b then _ else _] => destruct b end;
    discriminate.
Qed.

(** *** The immediate-state rule *)

(** C3. The immediate-state rule tests in a fixed order and the first test
    that succeeds decides: an eye aspect ratio below the drowsy threshold
    gives [drowsy]; otherwise a pitch above the distraction threshold gives
    [distracted]; otherwise an absolute yaw above the relaxing threshold, or
    a pitch below -15 degrees, gives [relaxing]; otherwise the candidate is
    [focused].  In particular a measurement with the eye aspect ratio below
    its threshold and the pitch above its threshold is [drowsy]. *)
Theorem determineImmediateState_priority this hp ear :
  ((ear <? DROWSY_EAR_THRESHOLD this) = true ->
   determineImmediateState this hp ear = drowsy) /\
  ((ear <? DROWSY_EAR_THRESHOLD this) = false ->
   (pitch hp >? DISTRACTION_PITCH_THRESHOLD this) = true ->
   determineImmediateState this hp ear = distracted) /\
  ((ear <? DROWSY_EAR_THRESHOLD this) = false ->
   (pitch hp >? DISTRACTION_PITCH_THRESHOLD this) = false ->
   (Math_abs (yaw hp) >? RELAXING_YAW_THRESHOLD this) = true
   \/ (pitch hp <? lit (-15)) = true ->
   determineImmediateState this hp ear = relaxing) /\
  ((ear <? DROWSY_EAR_THRESHOLD this) = false ->
   (pitch hp >? DISTRACTION_PITCH_THRESHOLD this) = false ->
   (Math_abs (yaw hp) >? RELAXING_YAW_THRESHOLD this) = false ->
   (pitch hp <? lit (-15)) = false ->
   determineImmediateState this hp ear = focused) /\
  ((ear <? DROWSY_EAR_THRESHOLD this) = true ->
   (pitch hp >? DISTRACTION_PITCH_THRESHOLD this) = true ->
   determineImmediateState this hp ear = drowsy).
Proof.
  unfold determineImmediateState.
  repeat split.
  - intros ->. reflexivity.
  - intros -> ->. reflexivity.
  - intros -> -> [-> | ->]; [reflexivity|].
    now rewrite orb_true_r.
  - intros -> -> -> ->. reflexivity.
  - intros -> _. reflexivity.
Qed.

(** *** Hold windows *)

Lemma classifyAll_cons this (f : Frame num) rest :
  classifyAll this (f :: rest)
  = classify this (frame_headPose f) (frame_avgEAR f) (frame_landmarks f)
      (frame_now f)
    :: classifyAll
         (snd (classify this (frame_headPose f) (frame_avgEAR f)
                 (frame_landmarks f) (frame_now f))) rest.
Proof. reflexivity. Qed.

(** Every frame of a run whose candidate is the state the detector already
    stores: the timer stays where it is and the hold duration decides. *)
Lemma classifyAll_held frames : forall this c,
  currentState this = c ->
  Forall (fun f => candidate this f = c) frames ->
  forall (i : nat) f r d,
    nth_error frames i = Some f ->
    nth_error (classifyAll this frames) i = Some (r, d) ->
    currentState d = c /\ stateStartTime d = stateStartTime this /\
    same_config this d /\
    state r = fst (applyTimeBasedLogic d c (frame_now f)).
Proof.
  induction frames as [|f0 rest IH]; intros this c Hc Hall i f r d Hf Hr.
  - destruct i; discriminate.
  - inversion Hall as [|? ? Hf0 Hrest]; subst.
    pose proof (applyTimeBasedLogic_fields this (candidate this f0) (frame_now f0))
      as (F1 & _ & F3 & _ & F5).
    rewrite classifyAll_cons in Hr.
    remember (classify this (frame_headPose f0) (frame_avgEAR f0)
                (frame_landmarks f0) (frame_now f0)) as rd eqn:Erd.
    assert (snd rd = this) as Ed.
    { rewrite Erd, classify_detector. fold (candidate this f0).
      rewrite applyTimeBasedLogic_detector, Hf0, FocusState_eqb_refl.
      reflexivity. }
    assert (state (fst rd) = fst (applyTimeBasedLogic this (currentState this)
                                    (frame_now f0))) as Es.
    { rewrite Erd, classify_state. fold (candidate this f0). now rewrite Hf0. }
    clear Erd. destruct rd as [r0 d0]. cbn [fst snd] in Ed, Es, Hr. subst d0.
    destruct i as [|i]; cbn [nth_error] in Hf, Hr.
    + assert (f = f0) by congruence. assert (r = r0 /\ d = this) as [-> ->]
        by (split; congruence).
      subst f. repeat split; auto using same_config_refl.
    + exact (IH this (currentState this) eq_refl Hrest i f r d Hf Hr).
Qed.

Lemma candidate_config d d' (f : Frame num) :
  same_config d d' -> candidate d' f = candidate d f.
Proof. apply determineImmediateState_config. Qed.

(** What one [classify] call emits, in terms of the detector it leaves. *)
Lemma classify_emits this hp ear l now :
  let c := determineImmediateState this hp ear in
  let r := fst (classify this hp ear l now) in
  let d := snd (classify this hp ear l now) in
  (c = focused -> state r = focused) /\
  (c <> focused ->
   (now - stateStartTime d < holdMs this c)%Z -> state r = focused) /\
  ((holdMs this c <= now - stateStartTime d)%Z -> state r = c).
Proof.
  cbv zeta. rewrite classify_state, classify_detector.
  set (c := determineImmediateState this hp ear).
  pose proof (applyTimeBasedLogic_emits this c now) as E.
  pose proof (applyTimeBasedLogic_fields this c now) as (_ & _ & _ & _ & Hcfg).
  destruct (applyTimeBasedLogic this c now) as [emitted d].
  cbn [fst snd] in *. rewrite (holdMs_config _ _ c Hcfg) in E.
  destruct E as (E1 & _ & E3 & E4).
  repeat split; auto.
  intros. apply E3; auto. apply determineImmediateState_known.
Qed.

(** C1. Take a run of [classify] calls with a non-decreasing clock that
    starts when a candidate [c] other than [focused] first appears (the
    detector stores another state) and in which every call has the candidate
    [c].  The timer is the clock reading of the first call throughout; a call
    at which [now - stateStartTime] is below the hold duration of [c] emits
    [focused], and a call at which it has reached the hold duration emits
    [c].  A call whose candidate is [focused] emits [focused] whatever the
    timer says.  A new detector holds [drowsy] for 25000 ms, [distracted]
    for 15000 ms and [relaxing] for 30000 ms.  (The proof does not use the
    assumption on the clock.) *)
Theorem hold_window :
  (forall this (f0 : Frame num) rest c,
      c <> focused ->
      currentState this <> c ->
      Sorted Z.le (map frame_now (f0 :: rest)) ->
      Forall (fun f => candidate this f = c) (f0 :: rest) ->
      forall (i : nat) f r d,
        nth_error (f0 :: rest) i = Some f ->
        nth_error (classifyAll this (f0 :: rest)) i = Some (r, d) ->
        stateStartTime d = frame_now f0 /\
        ((frame_now f - stateStartTime d < holdMs this c)%Z ->
         state r = focused) /\
        ((holdMs this c <= frame_now f - stateStartTime d)%Z ->
         state r = c)) /\
  (forall this hp ear l now,
      determineImmediateState this hp ear = focused ->
      state (fst (classify this hp ear l now)) = focused) /\
  (forall t0,
      holdMs (new_AIStateDetector (N := N) t0) drowsy = 25000%Z /\
      holdMs (new_AIStateDetector (N := N) t0) distracted = 15000%Z /\
      holdMs (new_AIStateDetector (N := N) t0) relaxing = 30000%Z).
Proof.
  split; [|split].
  - intros this f0 rest c Hnf Hfirst _ Hall i f r d Hf Hr.
    inversion Hall as [|? ? Hf0 Hrest]; subst. unfold candidate in *.
    rewrite classifyAll_cons in Hr.
    pose proof (classify_emits this (frame_headPose f0) (frame_avgEAR f0)
                  (frame_landmarks f0) (frame_now f0)) as E0.
    pose proof (applyTimeBasedLogic_fields this
                  (determineImmediateState this (frame_headPose f0)
                     (frame_avgEAR f0))
                  (frame_now f0)) as (F1 & F2 & _ & _ & F5).
    cbv zeta in E0, F1, F2, F5.
    rewrite <- classify_detector with (l := frame_landmarks f0) in F1, F2, F5.
    set (c := determineImmediateState this (frame_headPose f0)
                (frame_avgEAR f0)) in *.
    set (rd := classify this (frame_headPose f0) (frame_avgEAR f0)
                 (frame_landmarks f0) (frame_now f0)) in *.
    destruct i as [|i]; cbn [nth_error] in Hf, Hr.
    + assert (f = f0) by congruence. subst f.
      assert (r = fst rd /\ d = snd rd) as [-> ->]
        by (rewrite (surjective_pairing rd) in Hr; split; congruence).
      destruct E0 as (_ & E2 & E3). auto.
    + assert (Forall (fun f => candidate (snd rd) f = c) rest) as Hrest'.
      { eapply Forall_impl; [|exact Hrest]. intros a Ha. cbv beta in *.
        now rewrite (candidate_config _ _ a F5). }
      destruct (classifyAll_held rest (snd rd) c F1 Hrest'
                  i f r d Hf Hr) as (Hc & Hs & Hcfg & Hst).
      pose proof (applyTimeBasedLogic_emits d c (frame_now f)) as E.
      pose proof (applyTimeBasedLogic_detector d c (frame_now f)) as Ed.
      rewrite Hc, FocusState_eqb_refl in Ed.
      destruct (applyTimeBasedLogic d c (frame_now f)) as [emitted d'].
      cbn [fst snd] in *. subst d'.
      rewrite (holdMs_config _ _ c (same_config_trans _ _ _ F5 Hcfg)) in E.
      destruct E as (_ & _ & E3 & E4).
      rewrite Hst, Hs. repeat split; auto.
      * rewrite <- Hs. intros. apply E3; auto.
        apply determineImmediateState_known.
      * rewrite <- Hs. exact E4.
  - intros this hp ear l now Hc.
    pose proof (classify_emits this hp ear l now) as E.
    cbv zeta in E. destruct E as (E1 & _). auto.
  - intros t0. repeat split.
Qed.

(** *** Confidence *)

Lemma calculateConfidence_config d d' hp ear c :
  DROWSY_EAR_THRESHOLD d = DROWSY_EAR_THRESHOLD d' ->
  calculateConfidence d hp ear c = calculateConfidence d' hp ear c.
Proof. intros E. unfold calculateConfidence. now rewrite E. Qed.

(** C2, as the code has it.  The confidence of a [classify] call is the
    per-state formula at the candidate of the immediate-state rule, not at
    the emitted state: the two agree on the calls that emit the candidate,
    and in a hold window (candidate [drowsy], [distracted] or [relaxing],
    emitted [focused]) the confidence is the candidate's formula.  The score
    reads nothing of the detector but the drowsy threshold. *)
Theorem confidence_of_candidate this hp ear l now :
  let c := determineImmediateState this hp ear in
  let r := fst (classify this hp ear l now) in
  confidence r = calculateConfidence this hp ear c /\
  (state r = c -> confidence r = calculateConfidence this hp ear (state r)) /\
  (state r <> c ->
   state r = focused /\ confidence r = calculateConfidence this hp ear c) /\
  (forall d, DROWSY_EAR_THRESHOLD d = DROWSY_EAR_THRESHOLD this ->
             confidence r = calculateConfidence d hp ear c).
Proof.
  cbv zeta.
  assert (confidence (fst (classify this hp ear l now))
          = calculateConfidence this hp ear (determineImmediateState this hp ear))
    as E.
  { unfold classify.
    pose proof (applyTimeBasedLogic_fields this
                  (determineImmediateState this hp ear) now)
      as (_ & _ & _ & _ & Hcfg).
    destruct (applyTimeBasedLogic this (determineImmediateState this hp ear) now)
      as [emitted d].
    cbn [fst snd confidence] in *. symmetry.
    apply calculateConfidence_config, Hcfg. }
  split; [exact E|]. split; [intros ->; exact E|]. split.
  - intros Hne. split; [|exact E].
    pose proof (classify_emits this hp ear l now) as H. cbv zeta in H.
    destruct H as (H1 & H2 & H3).
    destruct (Z_lt_le_dec
                (now - stateStartTime (snd (classify this hp ear l now)))
                (holdMs this (determineImmediateState this hp ear)))
      as [Hlt | Hge].
    + destruct (determineImmediateState this hp ear) eqn:Ec; auto;
        (apply H2; [discriminate | exact Hlt]).
    + specialize (H3 Hge). congruence.
  - intros d Hd. rewrite E. symmetry. now apply calculateConfidence_config.
Qed.

(** *** Calls of the public methods *)

Section Calls.

Context {M : JSMath num}.

Lemma classify_fields this hp ear l now :
  let c := determineImmediateState this hp ear in
  let d := snd (classify this hp ear l now) in
  currentState d = c /\
  (c <> currentState this -> stateStartTime d = now) /\
  (c = currentState this -> stateStartTime d = stateStartTime this) /\
  stateTimers d = stateTimers this /\
  same_config this d.
Proof.
  cbv zeta. rewrite classify_detector. apply applyTimeBasedLogic_fields.
Qed.

(** A call returns, and touches nothing but the stored state and the timer. *)
Lemma analyzeFaceLandmarks_normal this (a : JSArray num) now :
  exists r d,
    analyzeFaceLandmarks this a now = Normal (r, d) /\
    (stateStartTime d = stateStartTime this \/ stateStartTime d = now) /\
    stateTimers d = stateTimers this /\
    same_config this d.
Proof.
  destruct a as [[|v l]|].
  - exists noFaceResult, this. split; [reflexivity|].
    auto using same_config_refl.
  - destruct (analyzeFaceLandmarks_classify this v l now) as (hp & ear & _ & E).
    pose proof (classify_fields this hp ear (v :: l) now) as F. cbv zeta in F.
    destruct F as (_ & F2 & F3 & F4 & F5).
    exists (fst (classify this hp ear (v :: l) now)),
           (snd (classify this hp ear (v :: l) now)).
    rewrite <- surjective_pairing. split; [exact E|]. split; [|auto].
    destruct (FocusState_eqb (determineImmediateState this hp ear)
                (currentState this)) eqn:Q.
    + apply FocusState_eqb_eq in Q. auto.
    + apply FocusState_eqb_neq in Q. auto.
  - exists noFaceResult, this. split; [reflexivity|].
    auto using same_config_refl.
Qed.

Lemma reset_fields this now :
  currentState (reset this now) = unknown /\
  stateStartTime (reset this now) = now /\
  stateTimers (reset this now) = [] /\
  same_config this (reset this now).
Proof. repeat split. Qed.

Lemma call_normal this (c : Call num) now :
  exists d,
    call this c now = Normal d /\
    (stateStartTime d = stateStartTime this \/ stateStartTime d = now) /\
    (stateTimers this = [] -> stateTimers d = []) /\
    same_config this d.
Proof.
  destruct c as [a|]; simpl.
  - destruct (analyzeFaceLandmarks_normal this a now)
      as (r & d & -> & Ht & Hm & Hc).
    exists d. cbn [bind snd].
    split; [reflexivity|]. split; [exact Ht|]. split; [congruence|exact Hc].
  - exists (reset this now).
    split; [reflexivity|]. split; [now right|]. split; [reflexivity|].
    apply reset_fields.
Qed.

(** A history returns; the map of timers stays empty and the thresholds
    stay. *)
Lemma history_normal calls : forall this,
  exists states,
    history this calls = Normal states /\
    (stateTimers this = [] -> stateTimers (last states this) = []) /\
    same_config this (last states this).
Proof.
  induction calls as [|[c now] rest IH]; intros this.
  - exists []. cbn [history last].
    split; [reflexivity|]. split; [auto | apply same_config_refl].
  - destruct (call_normal this c now) as (d & Ec & _ & Hm & Hcfg).
    destruct (IH d) as (states & Eh & Hm' & Hcfg').
    exists (d :: states). cbn [history]. rewrite Ec. cbn [bind]. rewrite Eh.
    cbn [bind]. split; [reflexivity|]. rewrite last_cons_default.
    split; [auto | eapply same_config_trans; eauto].
Qed.

(** The timers a history goes through never decrease when the clock does
    not. *)
Lemma history_sorted calls : forall this t states,
  (stateStartTime this <= t)%Z ->
  Sorted Z.le (t :: map snd calls) ->
  history this calls = Normal states ->
  Sorted Z.le (map stateStartTime (this :: states)).
Proof.
  induction calls as [|[c now] rest IH]; intros this t states Ht Hs E.
  - cbn [history] in E. injection E as <-. repeat constructor.
  - cbn [map snd] in Hs.
    apply Sorted_inv in Hs as [Hs Hhd]. apply HdRel_inv in Hhd.
    destruct (call_normal this c now) as (d & Ec & Hd & _).
    assert (stateStartTime this <= stateStartTime d <= now)%Z as [Hlo Hhi]
      by (destruct Hd as [-> | ->]; lia).
    cbn [history] in E. rewrite Ec in E. cbn [bind] in E.
    destruct (history d rest) as [tl|e] eqn:Eh; cbn [bind] in E;
      [|discriminate].
    injection E as <-. specialize (IH d now tl Hhi Hs Eh).
    cbn [map] in *. constructor; [exact IH | constructor; exact Hlo].
Qed.

Lemma new_AIStateDetector_fields t0 :
  currentState (new_AIStateDetector (N := N) t0) = unknown /\
  stateStartTime (new_AIStateDetector (N := N) t0) = t0 /\
  stateTimers (new_AIStateDetector (N := N) t0) = [].
Proof. repeat split. Qed.

(** C4. Along every sequence of calls on a new detector whose clock never
    goes back, the stored [stateStartTime] never decreases.  A call with
    landmarks sets it to the clock reading when the candidate is not the
    stored [currentState] and leaves it alone when the candidate is the
    stored state; a call without landmarks leaves it alone. *)
Theorem stateStartTime_monotone t0 (calls : list (Call num * Z)) :
  Sorted Z.le (t0 :: map snd calls) ->
  (exists states,
      history (new_AIStateDetector t0) calls = Normal states /\
      Sorted Z.le (map stateStartTime (new_AIStateDetector t0 :: states))) /\
  (forall this v l now,
      exists hp ear r d,
        measure (v :: l) = Normal (hp, ear) /\
        analyzeFaceLandmarks this (Some (v :: l)) now = Normal (r, d) /\
        (determineImmediateState this hp ear <> currentState this ->
         stateStartTime d = now) /\
        (determineImmediateState this hp ear = currentState this ->
         stateStartTime d = stateStartTime this)) /\
  (forall this now,
      exists r,
        analyzeFaceLandmarks this None now = Normal (r, this) /\
        analyzeFaceLandmarks this (Some []) now = Normal (r, this)).
Proof.
  intros Hclock. split; [|split].
  - destruct (history_normal calls (new_AIStateDetector t0)) as (states & E & _).
    exists states. split; [exact E|].
    apply (history_sorted calls _ t0 states); auto. simpl. lia.
  - intros this v l now.
    destruct (analyzeFaceLandmarks_classify this v l now) as (hp & ear & Em & E).
    pose proof (classify_fields this hp ear (v :: l) now) as F. cbv zeta in F.
    destruct F as (_ & F2 & F3 & _).
    exists hp, ear, (fst (classify this hp ear (v :: l) now)),
      (snd (classify this hp ear (v :: l) now)).
    rewrite <- surjective_pairing. auto.
  - intros this now. exists noFaceResult. split; reflexivity.
Qed.

(** C7. After whatever calls came before, [reset()] stores [unknown] and the
    clock reading, and changes nothing else: the map of timers is as it was
    (empty, as always) and the six thresholds are as they were. *)
Theorem reset_frame t0 (calls : list (Call num * Z)) now :
  exists states,
    history (new_AIStateDetector t0) calls = Normal states /\
    let this := last states (new_AIStateDetector t0) in
    currentState (reset this now) = unknown /\
    stateStartTime (reset this now) = now /\
    stateTimers (reset this now) = stateTimers this /\
    same_config this (reset this now) /\
    same_config (new_AIStateDetector t0) (reset this now).
Proof.
  destruct (history_normal calls (new_AIStateDetector t0))
    as (states & E & Hm & Hcfg).
  exists states. split; [exact E|]. cbv zeta.
  set (this := last states (new_AIStateDetector t0)) in *.
  destruct (reset_fields this now) as (R1 & R2 & R3 & R4).
  split; [exact R1|]. split; [exact R2|]. split; [|split].
  - rewrite R3. symmetry. apply Hm. reflexivity.
  - exact R4.
  - eapply same_config_trans; eauto.
Qed.

(** C8. A new detector stores [unknown].  A call with a non-empty landmark
    set neither stores nor emits [unknown]; any call either leaves the
    detector as it is or stores a state other than [unknown]: only [reset()]
    brings [unknown] back. *)
Theorem unknown_only_by_reset :
  (forall t0, currentState (new_AIStateDetector (N := N) t0) = unknown) /\
  (forall this v l now,
      exists r d,
        analyzeFaceLandmarks this (Some (v :: l)) now = Normal (r, d) /\
        currentState d <> unknown /\ state r <> unknown) /\
  (forall this (a : JSArray num) now,
      exists r d,
        analyzeFaceLandmarks this a now = Normal (r, d) /\
        (d = this \/ currentState d <> unknown)) /\
  (forall this now, currentState (reset this now) = unknown).
Proof.
  assert (forall this v l now,
             exists r d,
               analyzeFaceLandmarks this (Some (v :: l)) now = Normal (r, d) /\
               currentState d <> unknown /\ state r <> unknown) as Hcall.
  { intros this v l now.
    destruct (analyzeFaceLandmarks_classify this v l now) as (hp & ear & _ & E).
    pose proof (classify_fields this hp ear (v :: l) now) as F. cbv zeta in F.
    destruct F as (F1 & _).
    pose proof (determineImmediateState_known this hp ear) as K.
    pose proof (classify_emits this hp ear (v :: l) now) as H. cbv zeta in H.
    destruct H as (H1 & H2 & H3).
    exists (fst (classify this hp ear (v :: l) now)),
      (snd (classify this hp ear (v :: l) now)).
    rewrite <- surjective_pairing. split; [exact E|]. split; [congruence|].
    destruct (Z_lt_le_dec
                (now - stateStartTime (snd (classify this hp ear (v :: l) now)))
                (holdMs this (determineImmediateState this hp ear)))
      as [Hlt | Hge].
    - destruct (FocusState_eqb (determineImmediateState this hp ear) focused)
        eqn:Q.
      + apply FocusState_eqb_eq in Q. rewrite (H1 Q). discriminate.
      + apply FocusState_eqb_neq in Q. rewrite (H2 Q Hlt). discriminate.
    - rewrite (H3 Hge). exact K. }
  split; [reflexivity|]. split; [exact Hcall|]. split; [|reflexivity].
  intros this [[|v l]|] now.
  - exists noFaceResult, this. split; [reflexivity | now left].
  - destruct (Hcall this v l now) as (r & d & E & Hd & _).
    exists r, d. auto.
  - exists noFaceResult, this. split; [reflexivity | now left].
Qed.

(** C9. [analyzeFaceLandmarks] returns a result for every argument and every
    detector, it never throws; of the detector it may change the stored
    state and the timer, nothing else. *)
Theorem analyzeFaceLandmarks_total this (a : JSArray num) now :
  exists r d,
    analyzeFaceLandmarks this a now = Normal (r, d) /\
    stateTimers d = stateTimers this /\
    same_config this d /\
    d = set_currentState (set_stateStartTime this (stateStartTime d))
          (currentState d).
Proof.
  destruct (analyzeFaceLandmarks_normal this a now) as (r & d & E & _ & Hm & Hc).
  exists r, d. split; [exact E|]. split; [exact Hm|]. split; [exact Hc|].
  destruct Hc as (C1 & C2 & C3 & C4 & C5 & C6).
  destruct this, d. cbn in *. subst. reflexivity.
Qed.

(** C10. Called with [null] or with an empty array, [analyzeFaceLandmarks]
    returns [{state: 'unknown', confidence: 0, headPose: {pitch: 0, yaw: 0,
    roll: 0}, eyeAspectRatio: 0}] (no [landmarks] field) and leaves the
    detector exactly as it was. *)
Theorem analyzeFaceLandmarks_without_landmarks this now :
  let result :=
    {| state := unknown;
       confidence := lit 0;
       headPose := {| pitch := lit 0; yaw := lit 0; roll := lit 0 |};
       eyeAspectRatio := lit 0;
       landmarks := None |} in
  analyzeFaceLandmarks this None now = Normal (result, this) /\
  analyzeFaceLandmarks this (Some []) now = Normal (result, this).
Proof.
  cbv zeta. split.
  - unfold analyzeFaceLandmarks, noFaceResult, zeroPose. reflexivity.
  - unfold analyzeFaceLandmarks. cbn [length Nat.eqb].
    unfold noFaceResult, zeroPose. reflexivity.
Qed.

End Calls.

End DetectorFacts.

(** ** Doubles *)

Section Doubles.

Lemma SFcompare_antisym a b :
  SFcompare b a = option_map CompOpp (SFcompare a b).
Proof.
  destruct a as [sa|sa| |sa ma ea], b as [sb|sb| |sb mb eb]; simpl;
    try reflexivity; try (destruct sa; reflexivity);
    try (destruct sb; reflexivity); try (destruct sa, sb; reflexivity).
  destruct sa, sb; try reflexivity; f_equal;
    rewrite (Z.compare_antisym ea eb);
    destruct (ea ?= eb)%Z; simpl; try reflexivity.
  - f_equal. symmetry. exact (Pos.compare_cont_antisym ma mb Eq).
  - symmetry. exact (Pos.compare_cont_antisym ma mb Eq).
Qed.

Lemma is_nan_false a : PrimFloat.is_nan a = false -> Prim2SF a <> S754_nan.
Proof.
  unfold PrimFloat.is_nan. rewrite FloatAxioms.eqb_spec. unfold SFeqb.
  intros H E. rewrite E in H. discriminate.
Qed.

Lemma SFcompare_some a b :
  a <> S754_nan -> b <> S754_nan -> exists c, SFcompare a b = Some c.
Proof. destruct a, b; simpl; intros; try congruence; eauto. Qed.

Lemma double_ltb_leb a b : PrimFloat.ltb a b = true -> PrimFloat.leb a b = true.
Proof.
  rewrite FloatAxioms.ltb_spec, FloatAxioms.leb_spec. unfold SFltb, SFleb.
  destruct (SFcompare (Prim2SF a) (Prim2SF b)) as [[]|]; congruence.
Qed.

Lemma double_not_ltb_leb a b :
  PrimFloat.is_nan a = false -> PrimFloat.is_nan b = false ->
  PrimFloat.ltb a b = false -> PrimFloat.leb b a = true.
Proof.
  intros Ha Hb. apply is_nan_false in Ha, Hb.
  rewrite FloatAxioms.ltb_spec, FloatAxioms.leb_spec. unfold SFltb, SFleb.
  rewrite (SFcompare_antisym (Prim2SF a) (Prim2SF b)).
  destruct (SFcompare_some _ _ Ha Hb) as [c ->]. destruct c; simpl; congruence.
Qed.

(** [Math.max(0.1, Math.min(1.0, x))] is [NaN] exactly when [x] is, and
    is in the range otherwise. *)
Lemma double_clamp x :
  let r := Math_max (lit 0.1) (Math_min (lit 1.0) x) in
  PrimFloat.is_nan r = PrimFloat.is_nan x /\
  (PrimFloat.is_nan x = false -> in_confidence_range r = true).
Proof.
  cbv zeta. cbn [Math_max Math_min double lit]. unfold double_min.
  change (PrimFloat.is_nan (double_lit 1.0)) with false. cbn [orb].
  destruct (PrimFloat.is_nan x) eqn:Hx.
  - split; [reflexivity | discriminate].
  - unfold in_confidence_range. cbn [lit double].
    destruct (PrimFloat.ltb (double_lit 1.0) x) eqn:H1.
    + split; [reflexivity | intros _; reflexivity].
    + assert (PrimFloat.leb x (double_lit 1.0) = true) as Hle
        by (apply double_not_ltb_leb; auto).
      assert ((if PrimFloat.ltb x (double_lit 1.0) then x
               else if PrimFloat.get_sign (double_lit 1.0)
                    then double_lit 1.0 else x) = x) as ->
        by (destruct (PrimFloat.ltb x (double_lit 1.0)); reflexivity).
      unfold double_max.
      change (PrimFloat.is_nan (double_lit 0.1)) with false. cbn [orb].
      rewrite Hx.
      destruct (PrimFloat.ltb (double_lit 0.1) x) eqn:H2.
      * split; [exact Hx|]. intros _.
        now rewrite (double_ltb_leb _ _ H2), Hle.
      * assert ((if PrimFloat.ltb x (double_lit 0.1) then double_lit 0.1
                 else if PrimFloat.get_sign (double_lit 0.1)
                      then x else double_lit 0.1) = double_lit 0.1) as ->
          by (destruct (PrimFloat.ltb x (double_lit 0.1)); reflexivity).
        split; [reflexivity | intros _; reflexivity].
Qed.

End Doubles.

(** ** The range of the confidence *)

(** The last line of [calculateConfidence]. *)
Lemma calculateConfidence_clamp {num : Type} {N : JSNumber num}
    (this : AIStateDetector num) (hp : HeadPose num) (ear : num)
    (c : FocusState) :
  exists raw,
    calculateConfidence this hp ear c
    = Math_max (lit 0.1) (Math_min (lit 1.0) raw).
Proof. unfold calculateConfidence. eexists. reflexivity. Qed.

Lemma classify_confidence_clamp {num : Type} {N : JSNumber num}
    (this : AIStateDetector num) (hp : HeadPose num) (ear : num)
    (l : list (JSValue num)) (now : Z) :
  exists raw,
    confidence (fst (classify this hp ear l now))
    = Math_max (lit 0.1) (Math_min (lit 1.0) raw).
Proof.
  unfold classify.
  destruct (applyTimeBasedLogic this (determineImmediateState this hp ear) now)
    as [emitted d].
  cbn [fst confidence]. apply calculateConfidence_clamp.
Qed.

Lemma exact_clamp (x : Q) :
  (0.1 <= Math_max (lit 0.1) (Math_min (lit 1.0) x) <= 1)%Q.
Proof.
  cbn [Math_max Math_min exact lit]. split.
  - apply Q.le_max_l.
  - apply Q.max_lub; [lra|].
    eapply Qle_trans; [apply Q.le_min_l | lra].
Qed.

(** C5, as the code has it.  A call with a non-empty landmark set returns a
    confidence in [[0.1, 1.0]]: on doubles unless the score is [NaN] (which
    the clamp lets through), in exact arithmetic always.  A call with [null]
    or with an empty array returns the confidence 0. *)
Theorem confidence_bounds :
  (forall (M : JSMath float) (this : AIStateDetector float) v l now,
      exists r d,
        analyzeFaceLandmarks this (Some (v :: l)) now = Normal (r, d) /\
        (PrimFloat.is_nan (confidence r) = true
         \/ in_confidence_range (confidence r) = true)) /\
  (forall (M : JSMath Q) (this : AIStateDetector Q) v l now,
      exists r d,
        analyzeFaceLandmarks this (Some (v :: l)) now = Normal (r, d) /\
        (0.1 <= confidence r <= 1)%Q) /\
  (forall (num : Type) (N : JSNumber num) (M : JSMath num)
          (this : AIStateDetector num) now,
      exists r,
        analyzeFaceLandmarks this None now = Normal (r, this) /\
        analyzeFaceLandmarks this (Some []) now = Normal (r, this) /\
        confidence r = lit 0).
Proof.
  split; [|split].
  - intros M this v l now.
    destruct (analyzeFaceLandmarks_classify this v l now) as (hp & ear & _ & E).
    exists (fst (classify this hp ear (v :: l) now)),
      (snd (classify this hp ear (v :: l) now)).
    rewrite <- surjective_pairing. split; [exact E|].
    destruct (classify_confidence_clamp this hp ear (v :: l) now) as [raw ->].
    destruct (double_clamp raw) as [Hn Hr]. cbv zeta in Hn, Hr.
    destruct (PrimFloat.is_nan raw) eqn:Hraw.
    + left. exact Hn.
    + right. now apply Hr.
  - intros M this v l now.
    destruct (analyzeFaceLandmarks_classify this v l now) as (hp & ear & _ & E).
    exists (fst (classify this hp ear (v :: l) now)),
      (snd (classify this hp ear (v :: l) now)).
    rewrite <- surjective_pairing. split; [exact E|].
    destruct (classify_confidence_clamp this hp ear (v :: l) now) as [raw ->].
    apply exact_clamp.
  - intros num N M this now. exists noFaceResult. repeat split.
Qed.

(** ** The drowsy confidence in exact arithmetic *)




(** ** The properties on sample inputs *)

(** The scenario of the specification, run on doubles: the emitted states,
    and the confidence of the confirmed [distracted] and [drowsy] frames. *)
Example scenario :
  map (fun rd => state (fst rd)) (classifyAll sampleDetector scenarioFrames)
  = [focused; focused; focused; distracted; focused; drowsy] /\
  map (fun rd => confidence (fst rd))
    (classifyAll sampleDetector scenarioFrames)
  = [lit 1; lit (25 # 45); lit (25 # 45); lit (25 # 45); lit 0.6; lit 0.6].
Proof. split; vm_compute; reflexivity. Qed.

(** C1 on a new detector: closed eyes (EAR 0.1) first seen at 1000 ms are
    emitted as [focused] at 1000 and at 25999 and as [drowsy] at 26000. *)
Lemma hold_window_witness :
  (drowsy <> focused /\ currentState sampleDetector <> drowsy /\
   Sorted Z.le (map frame_now sampleFrames) /\
   Forall (fun f => candidate sampleDetector f = drowsy) sampleFrames) /\
  (exists r d,
      nth_error (classifyAll sampleDetector sampleFrames) 1 = Some (r, d) /\
      stateStartTime d = 1000 /\ state r = focused) /\
  (exists r d,
      nth_error (classifyAll sampleDetector sampleFrames) 2 = Some (r, d) /\
      stateStartTime d = 1000 /\ state r = drowsy) /\
  state (fst (classify sampleDetector (frame_headPose (sampleFrame 0 0 0.3 5))
                (frame_avgEAR (sampleFrame 0 0 0.3 5)) sampleLandmarks 5))
  = focused.
Proof.
  assert (drowsy <> focused) as H1 by discriminate.
  assert (currentState sampleDetector <> drowsy) as H2 by discriminate.
  assert (Sorted Z.le (map frame_now sampleFrames)) as H3
    by (repeat (constructor; try (cbn; lia))).
  assert (Forall (fun f => candidate sampleDetector f = drowsy) sampleFrames)
    as H4 by (repeat constructor).
  split; [auto|]. split; [|split].
  - destruct (nth_error (classifyAll sampleDetector sampleFrames) 1)
      as [[r d]|] eqn:E; [|discriminate E].
    exists r, d. split; [reflexivity|].
    destruct (proj1 hold_window sampleDetector
                (sampleFrame 0 0 0.1 1000)
                [sampleFrame 0 0 0.1 25999; sampleFrame 0 0 0.1 26000]
                drowsy H1 H2 H3 H4
                1%nat (sampleFrame 0 0 0.1 25999) r d eq_refl E) as (S & A & _).
    split; [exact S|]. apply A. rewrite S. reflexivity.
  - destruct (nth_error (classifyAll sampleDetector sampleFrames) 2)
      as [[r d]|] eqn:E; [|discriminate E].
    exists r, d. split; [reflexivity|].
    destruct (proj1 hold_window sampleDetector
                (sampleFrame 0 0 0.1 1000)
                [sampleFrame 0 0 0.1 25999; sampleFrame 0 0 0.1 26000]
                drowsy H1 H2 H3 H4
                2%nat (sampleFrame 0 0 0.1 26000) r d eq_refl E) as (S & _ & B).
    split; [exact S|]. apply B. rewrite S. discriminate.
  - apply (proj1 (proj2 hold_window)). reflexivity.
Defined.

(** C2 fails as stated: in the hold window of closed eyes (EAR 0.1, head
    straight, 1 ms after construction) the call emits [focused] with the
    confidence 0.6 of the drowsy formula, and the focused formula gives
    two thirds. *)
Lemma confidence_not_of_emitted_state :
  determineImmediateState sampleDetector (frame_headPose (sampleFrame 0 0 0.1 1))
    (frame_avgEAR (sampleFrame 0 0 0.1 1)) = drowsy /\
  state (fst (classify sampleDetector (frame_headPose (sampleFrame 0 0 0.1 1))
                (frame_avgEAR (sampleFrame 0 0 0.1 1)) sampleLandmarks 1))
  = focused /\
  confidence (fst (classify sampleDetector
                     (frame_headPose (sampleFrame 0 0 0.1 1))
                     (frame_avgEAR (sampleFrame 0 0 0.1 1)) sampleLandmarks 1))
  = lit 0.6 /\
  calculateConfidence sampleDetector (frame_headPose (sampleFrame 0 0 0.1 1))
    (frame_avgEAR (sampleFrame 0 0 0.1 1)) focused
  = lit (2 # 3) /\
  PrimFloat.eqb (lit 0.6) (lit (2 # 3)) = false.
Proof. repeat split; vm_compute; reflexivity. Qed.

(** C2 as amended, on the same call. *)
Lemma confidence_of_candidate_witness :
  confidence (fst (classify sampleDetector
                     (frame_headPose (sampleFrame 0 0 0.1 1))
                     (frame_avgEAR (sampleFrame 0 0 0.1 1)) sampleLandmarks 1))
  = calculateConfidence sampleDetector (frame_headPose (sampleFrame 0 0 0.1 1))
      (frame_avgEAR (sampleFrame 0 0 0.1 1)) drowsy /\
  state (fst (classify sampleDetector (frame_headPose (sampleFrame 0 0 0.1 1))
                (frame_avgEAR (sampleFrame 0 0 0.1 1)) sampleLandmarks 1))
  = focused.
Proof.
  pose proof (confidence_of_candidate sampleDetector
                (frame_headPose (sampleFrame 0 0 0.1 1))
                (frame_avgEAR (sampleFrame 0 0 0.1 1)) sampleLandmarks 1) as H.
  cbv zeta in H. destruct H as (H1 & _ & H3 & _).
  split; [exact H1|]. apply H3. discriminate.
Defined.

(** C3 on closed eyes with the head down (EAR 0.1, pitch 25): both the
    drowsy and the distracted test succeed and the answer is [drowsy]. *)
Lemma determineImmediateState_priority_witness :
  PrimFloat.ltb (frame_avgEAR (sampleFrame 25 0 0.1 0))
    (DROWSY_EAR_THRESHOLD sampleDetector) = true /\
  PrimFloat.ltb (DISTRACTION_PITCH_THRESHOLD sampleDetector)
    (pitch (frame_headPose (sampleFrame 25 0 0.1 0))) = true /\
  determineImmediateState sampleDetector
    (frame_headPose (sampleFrame 25 0 0.1 0))
    (frame_avgEAR (sampleFrame 25 0 0.1 0)) = drowsy.
Proof.
  split; [reflexivity|]. split; [reflexivity|].
  apply (determineImmediateState_priority sampleDetector
           (frame_headPose (sampleFrame 25 0 0.1 0))
           (frame_avgEAR (sampleFrame 25 0 0.1 0))); reflexivity.
Defined.

(** C4 on the four sample calls, whatever the host's [Math]. *)
Lemma stateStartTime_monotone_witness :
  Sorted Z.le (0 :: map snd sampleCalls)%Z /\
  forall M : JSMath float,
    exists states,
      history sampleDetector sampleCalls = Normal states /\
      Sorted Z.le (map stateStartTime (sampleDetector :: states)).
Proof.
  assert (Sorted Z.le (0 :: map snd sampleCalls)%Z) as H
    by (repeat (constructor; try (cbn; lia))).
  split; [exact H|]. intros M.
  exact (proj1 (stateStartTime_monotone (M := M) 0%Z sampleCalls H)).
Defined.

(** C5 fails as stated: without landmarks the confidence is 0, below the
    range. *)
Lemma confidence_zero_without_landmarks :
  exists r,
    (forall M : JSMath float,
        analyzeFaceLandmarks sampleDetector (Some []) 0 = Normal (r, sampleDetector)
        /\ analyzeFaceLandmarks sampleDetector None 0
           = Normal (r, sampleDetector)) /\
    confidence r = lit 0 /\
    PrimFloat.eqb (confidence r) PrimFloat.zero = true /\
    in_confidence_range (confidence r) = false.
Proof.
  exists noFaceResult. split; [intros M; split; reflexivity|].
  repeat split.
Qed.

(** On doubles the clamp lets [NaN] through: a focused frame whose pitch is
    [NaN] has the confidence [NaN]. *)
Example confidence_nan :
  PrimFloat.is_nan
    (calculateConfidence sampleDetector
       {| pitch := PrimFloat.nan; yaw := lit 0; roll := lit 0 |}
       (lit 0.3) focused) = true /\
  determineImmediateState sampleDetector
    {| pitch := PrimFloat.nan; yaw := lit 0; roll := lit 0 |} (lit 0.3)
  = focused.
Proof. split; reflexivity. Qed.



(** ** The estimators of [src/lib/utils.ts] *)

Section EstimatorEdges.

Context {num : Type} {N : JSNumber num} {M : JSMath num}.

Implicit Types (e l : list (JSValue num)) (v : JSValue num).

Lemma distance_falsy (a b : JSValue num) :
  truthy a = false \/ truthy b = false -> distance a b = Throw TypeError.
Proof. destruct a, b; simpl; intros [H | H]; try discriminate; reflexivity. Qed.

(** [calculateEAR] answers 0 for [null] and for fewer than six entries.  On
    six entries or more it reads the first six: it returns when all of them
    are objects and throws a [TypeError] when one of them is [undefined] or
    [null]. *)
Theorem calculateEAR_completion :
  calculateEAR None = Normal (lit 0) /\
  (forall e, (length e < 6)%nat -> calculateEAR (Some e) = Normal (lit 0)) /\
  (forall e, (6 <= length e)%nat ->
             (forall i, (i < 6)%nat -> truthy (index e i) = true) ->
             exists r, calculateEAR (Some e) = Normal r) /\
  (forall e i, (6 <= length e)%nat -> (i < 6)%nat ->
               truthy (index e i) = false ->
               calculateEAR (Some e) = Throw TypeError).
Proof.
  split; [reflexivity|]. split; [|split].
  - intros e He. unfold calculateEAR.
    destruct (Nat.ltb_spec (length e) 6); [reflexivity | lia].
  - intros e He T. unfold calculateEAR.
    destruct (Nat.ltb_spec (length e) 6); [lia|].
    destruct (distance_truthy _ _ (T 1%nat ltac:(lia)) (T 5%nat ltac:(lia)))
      as [v1 ->].
    destruct (distance_truthy _ _ (T 2%nat ltac:(lia)) (T 4%nat ltac:(lia)))
      as [v2 ->].
    destruct (distance_truthy _ _ (T 0%nat ltac:(lia)) (T 3%nat ltac:(lia)))
      as [h ->].
    simpl. eauto.
  - intros e i He Hi F. unfold calculateEAR.
    destruct (Nat.ltb_spec (length e) 6); [lia|].
    destruct (truthy (index e 1)) eqn:T1;
      [|rewrite distance_falsy by auto; reflexivity].
    destruct (truthy (index e 5)) eqn:T5;
      [|rewrite distance_falsy by auto; reflexivity].
    destruct (distance_truthy _ _ T1 T5) as [v1 ->]. cbn [bind].
    destruct (truthy (index e 2)) eqn:T2;
      [|rewrite distance_falsy by auto; reflexivity].
    destruct (truthy (index e 4)) eqn:T4;
      [|rewrite distance_falsy by auto; reflexivity].
    destruct (distance_truthy _ _ T2 T4) as [v2 ->]. cbn [bind].
    destruct (truthy (index e 0)) eqn:T0;
      [|rewrite distance_falsy by auto; reflexivity].
    destruct (truthy (index e 3)) eqn:T3;
      [|rewrite distance_falsy by auto; reflexivity].
    exfalso.
    do 6 (destruct i as [|i]; [congruence|]). lia.
Qed.

Lemma index_overflow l (i : nat) :
  (length l <= i)%nat -> index l i = JSUndefined.
Proof. intros H. unfold index. now apply nth_overflow. Qed.

(** [calculateHeadPose] never throws, and answers the zero pose for [null],
    for an empty array and whenever one of the landmarks 1 (nose), 33 and
    263 (eyes), 175 (chin) and 10 (forehead) is missing: in particular for
    every array of at most 263 entries. *)
Theorem calculateHeadPose_zero :
  (forall a, exists hp, calculateHeadPose a = Normal hp) /\
  calculateHeadPose None = Normal zeroPose /\
  (forall l i, In i [1; 33; 263; 175; 10]%nat -> truthy (index l i) = false ->
               calculateHeadPose (Some l) = Normal zeroPose) /\
  (forall l, (length l <= 263)%nat ->
             calculateHeadPose (Some l) = Normal zeroPose).
Proof.
  assert (forall l i, In i [1; 33; 263; 175; 10]%nat ->
                      truthy (index l i) = false ->
                      calculateHeadPose (Some l) = Normal zeroPose) as Hmiss.
  { intros l i Hi F. unfold calculateHeadPose.
    destruct (length l =? 0)%nat; [reflexivity|].
    assert (falsy (index l 1) || falsy (index l 33) || falsy (index l 263)
            || falsy (index l 175) || falsy (index l 10) = true) as ->;
      [|reflexivity].
    unfold falsy. cbn [In] in Hi.
    destruct Hi as [<- | [<- | [<- | [<- | [<- | []]]]]]; rewrite F; cbn [negb];
      rewrite ?orb_true_r; reflexivity. }
  split; [apply calculateHeadPose_normal|]. split; [reflexivity|].
  split; [exact Hmiss|].
  intros l Hl. apply (Hmiss l 263%nat); [cbn; auto|].
  now rewrite index_overflow.
Qed.

End EstimatorEdges.

(** The shape of what [calculateHeadPose] returns: the zero pose, or three
    clamped angles. *)
Lemma calculateHeadPose_shape {num : Type} {N : JSNumber num} {M : JSMath num}
    (a : JSArray num) :
  exists hp,
    calculateHeadPose a = Normal hp /\
    (hp = zeroPose \/
     exists p y r,
       hp = {| pitch := Math_max (lit (-90)) (Math_min (lit 90) p);
               yaw := Math_max (lit (-90)) (Math_min (lit 90) y);
               roll := Math_max (lit (-45)) (Math_min (lit 45) r) |}).
Proof.
  unfold calculateHeadPose. destruct a as [l|]; [|eauto].
  destruct (length l =? 0)%nat; [eauto|].
  destruct (falsy (index l 1) || falsy (index l 33) || falsy (index l 263)
            || falsy (index l 175) || falsy (index l 10)) eqn:G; [eauto|].
  repeat (apply orb_false_elim in G; destruct G as [G ?]).
  unfold falsy in *.
  repeat match goal with
         | H : negb (truthy ?v) = false |- _ =>
             apply negb_false_iff in H
         end.
  repeat match goal with
         | H : truthy ?v = true |- _ =>
             let Ex := fresh "Ex" in let Ey := fresh "Ey" in
             destruct (prop_x_truthy v H) as [? Ex];
             destruct (prop_y_truthy v H) as [? Ey];
             rewrite ?Ex, ?Ey; clear H
         end.
  cbn [bind]. eexists. split; [reflexivity|]. right. eauto.
Qed.

Lemma double_ltb_irrefl a : PrimFloat.ltb a a = false.
Proof.
  rewrite FloatAxioms.ltb_spec. unfold SFltb.
  pose proof (SFcompare_antisym (Prim2SF a) (Prim2SF a)) as H.
  destruct (SFcompare (Prim2SF a) (Prim2SF a)) as [[]|]; simpl in H;
    try discriminate; reflexivity.
Qed.

Lemma double_leb_refl a : PrimFloat.is_nan a = false -> PrimFloat.leb a a = true.
Proof. intros H. apply double_not_ltb_leb; auto using double_ltb_irrefl. Qed.

(** [Math.max(lo, Math.min(hi, x))] for any bounds [lo <= hi]: [NaN] exactly
    when [x] is, between the bounds otherwise. *)
Lemma double_clamp_between lo hi x :
  PrimFloat.is_nan lo = false -> PrimFloat.is_nan hi = false ->
  PrimFloat.leb lo hi = true ->
  let r := double_max lo (double_min hi x) in
  PrimFloat.is_nan r = PrimFloat.is_nan x /\
  (PrimFloat.is_nan x = false -> double_between lo hi r = true).
Proof.
  intros Hlo Hhi Hle. cbv zeta. unfold double_min. rewrite Hhi. cbn [orb].
  destruct (PrimFloat.is_nan x) eqn:Hx.
  - unfold double_max. rewrite Hlo. cbn. split; [reflexivity | discriminate].
  - assert (exists m, (if PrimFloat.ltb hi x then hi
                       else if PrimFloat.ltb x hi then x
                            else if PrimFloat.get_sign hi then hi else x) = m
                      /\ PrimFloat.is_nan m = false
                      /\ PrimFloat.leb m hi = true) as (m & -> & Hm & Hmhi).
    { destruct (PrimFloat.ltb hi x) eqn:H1.
      - exists hi. auto using double_leb_refl.
      - assert (PrimFloat.leb x hi = true) by (apply double_not_ltb_leb; auto).
        destruct (PrimFloat.ltb x hi); [eauto|].
        destruct (PrimFloat.get_sign hi); eauto using double_leb_refl. }
    unfold double_max, double_between. rewrite Hlo, Hm. cbn [orb].
    destruct (PrimFloat.ltb lo m) eqn:H2.
    + split; [exact Hm|]. intros _.
      now rewrite (double_ltb_leb _ _ H2), Hmhi.
    + assert (PrimFloat.leb m lo = true) as Hml
        by (apply double_not_ltb_leb; auto).
      destruct (PrimFloat.ltb m lo) eqn:H3.
      * split; [exact Hlo|]. intros _.
        now rewrite (double_leb_refl _ Hlo), Hle.
      * assert (PrimFloat.leb lo m = true) as Hlm
          by (apply double_not_ltb_leb; auto).
        destruct (PrimFloat.get_sign lo).
        -- split; [exact Hm|]. intros _. now rewrite Hlm, Hmhi.
        -- split; [exact Hlo|]. intros _.
           now rewrite (double_leb_refl _ Hlo), Hle.
Qed.

Lemma exact_clamp_between (lo hi x : Q) :
  (lo <= hi)%Q -> (lo <= Qmax lo (Qmin hi x) <= hi)%Q.
Proof.
  intros H. split.
  - apply Q.le_max_l.
  - apply Q.max_lub; [exact H | apply Q.le_min_l].
Qed.

(** The angles [calculateHeadPose] returns are clamped: pitch and yaw to
    [[-90, 90]] and roll to [[-45, 45]].  On doubles an angle can also be
    [NaN], which the clamp lets through; in exact arithmetic the bounds
    always hold. *)
Theorem calculateHeadPose_bounds :
  (forall (M : JSMath float) (a : JSArray float),
      exists hp,
        calculateHeadPose a = Normal hp /\
        (PrimFloat.is_nan (pitch hp) = true
         \/ double_between (lit (-90)) (lit 90) (pitch hp) = true) /\
        (PrimFloat.is_nan (yaw hp) = true
         \/ double_between (lit (-90)) (lit 90) (yaw hp) = true) /\
        (PrimFloat.is_nan (roll hp) = true
         \/ double_between (lit (-45)) (lit 45) (roll hp) = true)) /\
  (forall (M : JSMath Q) (a : JSArray Q),
      exists hp,
        calculateHeadPose a = Normal hp /\
        (-90 <= pitch hp <= 90)%Q /\ (-90 <= yaw hp <= 90)%Q /\
        (-45 <= roll hp <= 45)%Q).
Proof.
  split.
  - intros M a.
    destruct (calculateHeadPose_shape a) as (hp & E & [-> | (p & y & r & ->)]);
      eexists; (split; [exact E|]).
    + repeat split; right; reflexivity.
    + cbn [pitch yaw roll Math_max Math_min double].
      assert (forall lo hi x,
                 PrimFloat.is_nan lo = false -> PrimFloat.is_nan hi = false ->
                 PrimFloat.leb lo hi = true ->
                 PrimFloat.is_nan (double_max lo (double_min hi x)) = true
                 \/ double_between lo hi (double_max lo (double_min hi x))
                    = true) as B.
      { intros lo hi x Hlo Hhi Hle.
        destruct (double_clamp_between lo hi x Hlo Hhi Hle) as [Hn Hr].
        cbv zeta in Hn, Hr. destruct (PrimFloat.is_nan x) eqn:Hx; auto. }
      repeat split; apply B; reflexivity.
  - intros M a.
    destruct (calculateHeadPose_shape a) as (hp & E & [-> | (p & y & r & ->)]);
      eexists; (split; [exact E|]).
    + cbn. repeat split; discriminate.
    + cbn [pitch yaw roll Math_max Math_min exact lit].
      repeat split; apply exact_clamp_between; discriminate.
Qed.

(** The confidence of a [classify] call is computed from the candidate. *)
Lemma classify_confidence {num : Type} {N : JSNumber num}
    (this : AIStateDetector num) (hp : HeadPose num) (ear : num)
    (l : list (JSValue num)) (now : Z) :
  confidence (fst (classify this hp ear l now))
  = calculateConfidence this hp ear (determineImmediateState this hp ear).
Proof.
  unfold classify.
  pose proof (applyTimeBasedLogic_fields this
                (determineImmediateState this hp ear) now)
    as (_ & _ & _ & _ & Hcfg).
  destruct (applyTimeBasedLogic this (determineImmediateState this hp ear) now)
    as [emitted d].
  cbn [fst snd confidence] in *. symmetry.
  apply calculateConfidence_config, Hcfg.
Qed.

(** ** A face without its eye landmarks *)

Section MissingEyes.

Context {M : JSMath float}.

Lemma filter_length_lt {A : Type} (f : A -> bool) (xs : list A) (x : A) :
  In x xs -> f x = false -> (length (filter f xs) < length xs)%nat.
Proof.
  induction xs as [|y ys IH]; intros Hin Hx; [contradiction|].
  cbn [filter length]. destruct Hin as [<- | Hin].
  - rewrite Hx. pose proof (filter_length_le f ys). lia.
  - specialize (IH Hin Hx). destruct (f y); cbn [length]; lia.
Qed.

Lemma calculateEAR_short (e : list (JSValue float)) :
  (length e < 6)%nat -> calculateEAR (Some e) = Normal (lit 0).
Proof.
  intros He. unfold calculateEAR.
  destruct (Nat.ltb_spec (length e) 6); [reflexivity | lia].
Qed.

(** One eye with a missing landmark has the eye aspect ratio 0. *)
Lemma calculateEAR_missing (l : list (JSValue float)) (indices : list nat)
    (i : nat) :
  length indices = 6%nat -> In i indices -> truthy (index l i) = false ->
  calculateEAR (Some (filter truthy (map (index l) indices))) = Normal (lit 0).
Proof.
  intros H6 Hi F. apply calculateEAR_short.
  rewrite <- H6, <- (length_map (index l) indices).
  apply filter_length_lt with (x := index l i); [now apply in_map | exact F].
Qed.

(** When a landmark of each eye is missing (as in every array of at most
    163 entries), a detector with the drowsy threshold 0.25 measures the
    eye aspect ratio 0: the candidate and the stored state are [drowsy], the
    confidence is 1, and the call emits [drowsy] or, during the hold,
    [focused]. *)
Theorem missing_eyes_drowsy (this : AIStateDetector float)
    (v : JSValue float) (l : list (JSValue float)) (now : Z) :
  DROWSY_EAR_THRESHOLD this = lit 0.25 ->
  (length (v :: l) <= 163)%nat
  \/ ((exists i, In i leftEyeIndices /\ truthy (index (v :: l) i) = false)
      /\ (exists j, In j rightEyeIndices
                    /\ truthy (index (v :: l) j) = false)) ->
  exists r d,
    analyzeFaceLandmarks this (Some (v :: l)) now = Normal (r, d) /\
    eyeAspectRatio r = lit 0 /\
    currentState d = drowsy /\
    confidence r = lit 1 /\
    (state r = drowsy \/ state r = focused).
Proof.
  intros Ht Hmiss.
  assert ((exists i, In i leftEyeIndices /\ truthy (index (v :: l) i) = false)
          /\ (exists j, In j rightEyeIndices
                        /\ truthy (index (v :: l) j) = false))
    as [(i & Hi & Fi) (j & Hj & Fj)].
  { destruct Hmiss as [Hlen | H]; [|exact H]. split.
    - exists 163%nat. split; [cbn; auto|]. now rewrite index_overflow.
    - exists 362%nat. split; [cbn; auto|].
      rewrite index_overflow; [reflexivity | lia]. }
  destruct (calculateHeadPose_normal (Some (v :: l))) as [hp Ehp].
  assert (measure (v :: l) = Normal (hp, lit 0)) as Em.
  { unfold measure. rewrite Ehp. cbn [bind].
    rewrite (calculateEAR_missing (v :: l) leftEyeIndices i eq_refl Hi Fi).
    rewrite (calculateEAR_missing (v :: l) rightEyeIndices j eq_refl Hj Fj).
    reflexivity. }
  assert (determineImmediateState this hp (lit 0) = drowsy) as Ec
    by (unfold determineImmediateState; rewrite Ht; reflexivity).
  exists (fst (classify this hp (lit 0) (v :: l) now)),
    (snd (classify this hp (lit 0) (v :: l) now)).
  rewrite <- surjective_pairing. split.
  { unfold analyzeFaceLandmarks. cbn [length Nat.eqb]. rewrite Em. reflexivity. }
  pose proof (classify_fields this hp (lit 0) (v :: l) now) as F.
  cbv zeta in F. destruct F as (F1 & _ & _ & _ & Hcfg).
  pose proof (classify_confidence this hp (lit 0) (v :: l) now) as C.
  pose proof (classify_emits this hp (lit 0) (v :: l) now) as E.
  cbv zeta in E. rewrite Ec in *. destruct E as (_ & E2 & E3).
  split; [unfold classify;
          destruct (applyTimeBasedLogic this drowsy now); reflexivity|].
  split; [exact F1|]. split.
  - rewrite C. unfold calculateConfidence. rewrite Ht. reflexivity.
  - destruct (Z_lt_le_dec
                (now - stateStartTime (snd (classify this hp (lit 0) (v :: l) now)))
                (holdMs this drowsy)) as [Hlt | Hge].
    + right. apply E2; [discriminate | exact Hlt].
    + left. now apply E3.
Qed.

End MissingEyes.

(** ** More on the stored state *)

Section StoredState.

Context {num : Type} {N : JSNumber num}.

Implicit Types (this d : AIStateDetector num) (hp : HeadPose num)
  (ear : num) (l : list (JSValue num)) (now : Z) (c : FocusState).

(** A call whose candidate is not the stored state restarts the timer and,
    when the hold duration of the candidate is positive, emits [focused]:
    going from one unfocused candidate to another (say from [drowsy] to
    [distracted]) is reported as [focused]. *)
Theorem candidate_change_emits_focused this hp ear l now :
  determineImmediateState this hp ear <> currentState this ->
  (determineImmediateState this hp ear <> focused ->
   (0 < holdMs this (determineImmediateState this hp ear))%Z) ->
  state (fst (classify this hp ear l now)) = focused /\
  stateStartTime (snd (classify this hp ear l now)) = now /\
  currentState (snd (classify this hp ear l now))
  = determineImmediateState this hp ear.
Proof.
  intros Hchange Hhold.
  pose proof (classify_fields this hp ear l now) as F. cbv zeta in F.
  destruct F as (F1 & F2 & _).
  pose proof (classify_emits this hp ear l now) as E. cbv zeta in E.
  destruct E as (E1 & E2 & _).
  specialize (F2 Hchange). split; [|auto].
  destruct (FocusState_eqb (determineImmediateState this hp ear) focused)
    eqn:Q.
  - apply FocusState_eqb_eq in Q. auto.
  - apply FocusState_eqb_neq in Q. apply E2; [exact Q|].
    rewrite F2. specialize (Hhold Q). lia.
Qed.

Section WithMath.

Context {M : JSMath num}.

(** [getCurrentState()] is not the emitted state: after a call with
    landmarks it is the candidate of that call (the emitted state is that
    candidate or [focused]), after a call without landmarks it is what it
    was, and after [reset()] it is [unknown]. *)
Theorem getCurrentState_is_candidate :
  (forall this (v : JSValue num) l now,
      exists hp ear r d,
        measure (v :: l) = Normal (hp, ear) /\
        analyzeFaceLandmarks this (Some (v :: l)) now = Normal (r, d) /\
        getCurrentState d = determineImmediateState this hp ear /\
        (state r = getCurrentState d \/ state r = focused)) /\
  (forall this now,
      exists r,
        analyzeFaceLandmarks this None now = Normal (r, this) /\
        analyzeFaceLandmarks this (Some []) now = Normal (r, this)) /\
  (forall this now, getCurrentState (reset this now) = unknown).
Proof.
  split; [|split].
  - intros this v l now.
    destruct (analyzeFaceLandmarks_classify this v l now)
      as (hp & ear & Em & E).
    exists hp, ear, (fst (classify this hp ear (v :: l) now)),
      (snd (classify this hp ear (v :: l) now)).
    rewrite <- surjective_pairing.
    pose proof (classify_fields this hp ear (v :: l) now) as F. cbv zeta in F.
    destruct F as (F1 & _).
    pose proof (classify_emits this hp ear (v :: l) now) as H. cbv zeta in H.
    destruct H as (H1 & H2 & H3).
    split; [exact Em|]. split; [exact E|]. unfold getCurrentState.
    split; [exact F1|]. rewrite F1.
    destruct (Z_lt_le_dec
                (now - stateStartTime (snd (classify this hp ear (v :: l) now)))
                (holdMs this (determineImmediateState this hp ear)))
      as [Hlt | Hge]; [|left; now apply H3].
    destruct (FocusState_eqb (determineImmediateState this hp ear) focused)
      eqn:Q.
    + apply FocusState_eqb_eq in Q. right. auto.
    + apply FocusState_eqb_neq in Q. right. auto.
  - intros this now. exists noFaceResult. split; reflexivity.
  - reflexivity.
Qed.

End WithMath.

End StoredState.

(** With the thresholds of a new detector, one [classify] call takes the
    stored state from wherever it is to any of [focused], [distracted],
    [relaxing] and [drowsy]: no state is a dead end. *)
Theorem every_state_one_call_away (this : AIStateDetector float)
    (l : list (JSValue float)) (now : Z) (c : FocusState) :
  same_config sampleDetector this -> c <> unknown ->
  exists hp ear, currentState (snd (classify this hp ear l now)) = c.
Proof.
  intros Hcfg Hc.
  assert (forall hp ear,
             determineImmediateState sampleDetector hp ear = c ->
             currentState (snd (classify this hp ear l now)) = c) as K.
  { intros hp ear E.
    pose proof (classify_fields this hp ear l now) as F. cbv zeta in F.
    destruct F as (F1 & _).
    now rewrite F1, (determineImmediateState_config _ _ hp ear Hcfg). }
  destruct c; try contradiction.
  - exists (frame_headPose (sampleFrame 0 0 0.35 0)),
      (frame_avgEAR (sampleFrame 0 0 0.35 0)). now apply K.
  - exists (frame_headPose (sampleFrame 25 0 0.35 0)),
      (frame_avgEAR (sampleFrame 25 0 0.35 0)). now apply K.
  - exists (frame_headPose (sampleFrame 0 40 0.35 0)),
      (frame_avgEAR (sampleFrame 0 40 0.35 0)). now apply K.
  - exists (frame_headPose (sampleFrame 0 0 0.10 0)),
      (frame_avgEAR (sampleFrame 0 0 0.10 0)). now apply K.
Qed.

(** ** The detection history of the page component *)

Section HomeFacts.

Context {num : Type} {N : JSNumber num}.

Lemma length_slice_last {A : Type} (k : nat) (a : list A) :
  length (slice_last k a) = Nat.min (length a) k.
Proof. unfold slice_last. rewrite length_skipn. lia. Qed.

Lemma slice_last_slice_last {A : Type} (j k : nat) (a : list A) :
  (j <= k)%nat -> slice_last j (slice_last k a) = slice_last j a.
Proof.
  intros H. unfold slice_last at 1. rewrite length_slice_last.
  unfold slice_last. rewrite skipn_skipn. f_equal. lia.
Qed.

Lemma slice_last_snoc {A : Type} (k : nat) (a : list A) (x : A) :
  slice_last k a ++ [x] = slice_last (S k) (a ++ [x]).
Proof.
  unfold slice_last. rewrite length_app, skipn_app. cbn [length].
  replace (length a + 1 - S k)%nat with (length a - k)%nat by lia.
  replace (length a - k - length a)%nat with 0%nat by lia.
  reflexivity.
Qed.

(** The entry [handleStateChange] appends for a result. *)
Lemma handleStateChange_history (s : HomeState num)
    (result : AIDetectionResult num) (now : Z) :
  detectionHistory (handleStateChange s result now)
  = slice_last 50 (detectionHistory s)
    ++ [ {| history_state := state result;
            history_timestamp := now;
            history_confidence := confidence result |} ].
Proof. reflexivity. Qed.

Lemma Home_step_bounded (s : HomeState num) (e : HomeEvent num) :
  (length (detectionHistory s) <= 51)%nat ->
  (length (detectionHistory (Home_step s e)) <= 51)%nat.
Proof.
  intros H. destruct e as [result now|]; cbn [Home_step].
  - rewrite handleStateChange_history, length_app, length_slice_last.
    cbn [length]. lia.
  - unfold toggleDetection. destruct (isDetectionActive s); cbn; lia.
Qed.

(** Whatever detections arrive and however often the button is pressed, the
    history of the page never holds more than 51 entries. *)
Theorem detectionHistory_bounded (events : list (HomeEvent num)) :
  (length (detectionHistory (Home_run Home_initial events)) <= 51)%nat.
Proof.
  unfold Home_run.
  assert (length (detectionHistory (Home_initial (N := N))) <= 51)%nat as H
    by (cbn; lia).
  revert H. generalize (Home_initial (N := N)) as s.
  induction events as [|e rest IH]; intros s H; cbn [fold_left]; [exact H|].
  apply IH, Home_step_bounded, H.
Qed.

(** Starting from an empty history (as after switching the detection on),
    the history after a run of detections is exactly the most recent 51 of
    them, oldest first: [slice(-50)] keeps 50 and the new one is added. *)
Theorem detectionHistory_most_recent (s : HomeState num)
    (inputs : list (AIDetectionResult num * Z)) :
  detectionHistory s = [] ->
  detectionHistory
    (Home_run s (map (fun i => StateChanged (fst i) (snd i)) inputs))
  = slice_last 51
      (map (fun i => {| history_state := state (fst i);
                        history_timestamp := snd i;
                        history_confidence := confidence (fst i) |})
         inputs).
Proof.
  intros Hs. unfold Home_run.
  set (entry := fun i : AIDetectionResult num * Z =>
                  {| history_state := state (fst i);
                     history_timestamp := snd i;
                     history_confidence := confidence (fst i) |}).
  assert (forall inputs s all,
             detectionHistory s = slice_last 51 all ->
             detectionHistory
               (fold_left Home_step
                  (map (fun i => StateChanged (fst i) (snd i)) inputs) s)
             = slice_last 51 (all ++ map entry inputs)) as G.
  { clear. intros inputs.
    induction inputs as [|i rest IH]; intros s all H; cbn [map fold_left].
    - now rewrite app_nil_r.
    - rewrite (IH _ (all ++ [entry i])).
      + now rewrite <- app_assoc.
      + cbn [Home_step]. rewrite handleStateChange_history, H.
        rewrite slice_last_slice_last by lia.
        apply slice_last_snoc. }
  apply (G inputs s []). rewrite Hs. reflexivity.
Qed.

End HomeFacts.

(** ** [formatTime] *)

Lemma forallb_seq_below (P : nat -> bool) (bound n : nat) :
  forallb P (seq 0 bound) = true -> (n < bound)%nat -> P n = true.
Proof.
  intros H Hn. rewrite forallb_forall in H. apply H, in_seq. lia.
Qed.

(** Below 100 minutes [formatTime] writes a whole number of seconds as
    [MM:SS]: two digits of minutes, a colon, two digits of seconds. *)
Theorem formatTime_mmss (seconds : Z) :
  (0 <= seconds < 6000)%Z ->
  formatTime seconds
  = String (digit (seconds / 60 / 10))
      (String (digit ((seconds / 60) mod 10))
         (String ":"
            (String (digit (seconds mod 60 / 10))
               (String (digit (seconds mod 60 mod 10)) EmptyString)))).
Proof.
  intros H.
  pose (P := fun n : nat =>
               String.eqb (formatTime (Z.of_nat n))
                 (String (digit (Z.of_nat n / 60 / 10))
                    (String (digit ((Z.of_nat n / 60) mod 10))
                       (String ":"
                          (String (digit (Z.of_nat n mod 60 / 10))
                             (String (digit (Z.of_nat n mod 60 mod 10))
                                EmptyString)))))).
  assert (forallb P (seq 0 (Z.to_nat 6000)) = true) as All
    by (vm_compute; reflexivity).
  pose proof (forallb_seq_below P (Z.to_nat 6000) (Z.to_nat seconds) All
                ltac:(lia)) as E.
  unfold P in E. rewrite Z2Nat.id in E by lia.
  now apply String.eqb_eq in E.
Qed.

(** ** [completeCalibration] *)

(** The calibration passes when strictly more than 60% of the recorded
    steps gave the expected state (four of five; three of five is not
    enough), and never on no data, where the accuracy is [NaN]. *)
Theorem completeCalibration_threshold
    (calibrationData : list (CalibrationEntry float)) :
  (length calibrationData <= 100)%nat ->
  completeCalibration calibrationData
  = (3 * length calibrationData <? 5 * calibration_matches calibrationData)%nat.
Proof.
  intros Hn.
  pose (P := fun n : nat =>
               forallb (fun k : nat =>
                          Bool.eqb
                            (PrimFloat.ltb (lit 0.6)
                               (PrimFloat.div (js_of_nat k) (js_of_nat n)))
                            (3 * n <? 5 * k)%nat)
                 (seq 0 (S n))).
  assert (forallb P (seq 0 101) = true) as All by (vm_compute; reflexivity).
  pose proof (forallb_seq_below P 101 (length calibrationData) All ltac:(lia))
    as En.
  unfold P in En.
  assert (calibration_matches calibrationData < S (length calibrationData))%nat
    as Hk.
  { unfold calibration_matches.
    pose proof (filter_length_le
                  (fun data : CalibrationEntry float =>
                     FocusState_eqb (calibration_actual data)
                       (calibration_expected data)) calibrationData).
    lia. }
  pose proof (forallb_seq_below _ _ _ En Hk) as E. cbv beta in E.
  apply Bool.eqb_prop in E. exact E.
Qed.

(** ** The first call after a reset *)

(** With positive hold durations, the first call with landmarks after
    [reset()] emits [focused] whatever is measured, and starts the timer at
    its clock reading; so does the first call on a new detector. *)
Theorem first_call_emits_focused {num : Type} {N : JSNumber num}
    {M : JSMath num} :
  (forall (this : AIStateDetector num) (t : Z) (v : JSValue num) l now,
      (0 < DROWSY_TIME_THRESHOLD this)%Z ->
      (0 < DISTRACTION_TIME_THRESHOLD this)%Z ->
      (0 < RELAXING_TIME_THRESHOLD this)%Z ->
      exists r d,
        analyzeFaceLandmarks (reset this t) (Some (v :: l)) now = Normal (r, d)
        /\ state r = focused /\ stateStartTime d = now) /\
  (forall (t : Z) (v : JSValue num) l now,
      exists r d,
        analyzeFaceLandmarks (new_AIStateDetector t) (Some (v :: l)) now
        = Normal (r, d)
        /\ state r = focused /\ stateStartTime d = now).
Proof.
  assert (forall (this : AIStateDetector num) (v : JSValue num) l now,
             currentState this = unknown ->
             (0 < DROWSY_TIME_THRESHOLD this)%Z ->
             (0 < DISTRACTION_TIME_THRESHOLD this)%Z ->
             (0 < RELAXING_TIME_THRESHOLD this)%Z ->
             exists r d,
               analyzeFaceLandmarks this (Some (v :: l)) now = Normal (r, d)
               /\ state r = focused /\ stateStartTime d = now) as G.
  { intros this v l now Hu H1 H2 H3.
    destruct (analyzeFaceLandmarks_classify this v l now) as (hp & ear & _ & E).
    exists (fst (classify this hp ear (v :: l) now)),
      (snd (classify this hp ear (v :: l) now)).
    rewrite <- surjective_pairing. split; [exact E|].
    pose proof (determineImmediateState_known this hp ear) as K.
    pose proof (classify_fields this hp ear (v :: l) now) as F. cbv zeta in F.
    destruct F as (_ & F2 & _).
    pose proof (classify_emits this hp ear (v :: l) now) as H. cbv zeta in H.
    destruct H as (A & B & _).
    assert (stateStartTime (snd (classify this hp ear (v :: l) now)) = now)
      as Hs by (apply F2; congruence).
    split; [|exact Hs].
    destruct (determineImmediateState this hp ear) eqn:Ec;
      [now apply A | | | | contradiction];
      (apply B; [discriminate | rewrite Hs; cbn [holdMs]; lia]). }
  split.
  - intros this t v l now H1 H2 H3. apply G; auto.
  - intros t v l now. apply G; reflexivity.
Qed.

(** ** The confidence of each candidate, in exact arithmetic *)





(** ** The further properties on sample inputs *)

Lemma calculateEAR_completion_witness :
  (length sampleLandmarks < 6)%nat /\
  (6 <= length sampleEyeWithHole)%nat /\ (2 < 6)%nat /\
  truthy (index sampleEyeWithHole 2) = false /\
  (6 <= length sampleEye)%nat /\
  forall M : JSMath float,
    calculateEAR (Some sampleLandmarks) = Normal (lit 0) /\
    calculateEAR (Some sampleEyeWithHole) = Throw TypeError /\
    exists r, calculateEAR (Some sampleEye) = Normal r.
Proof.
  assert (length sampleLandmarks < 6)%nat as H1 by (cbn; lia).
  assert (6 <= length sampleEyeWithHole)%nat as H2 by (cbn; lia).
  assert (2 < 6)%nat as H3 by lia.
  assert (truthy (index sampleEyeWithHole 2) = false) as H4 by reflexivity.
  assert (6 <= length sampleEye)%nat as H5 by (cbn; lia).
  repeat (split; [assumption|]). intros M.
  destruct (calculateEAR_completion (M := M)) as (_ & A & B & C).
  split; [exact (A sampleLandmarks H1)|].
  split; [exact (C sampleEyeWithHole 2%nat H2 H3 H4)|].
  apply (B sampleEye H5). intros i Hi.
  do 6 (destruct i as [|i]; [reflexivity|]). lia.
Defined.

Lemma calculateHeadPose_zero_witness :
  (length sampleLandmarks <= 263)%nat /\
  forall M : JSMath float,
    calculateHeadPose (Some sampleLandmarks) = Normal zeroPose.
Proof.
  assert (length sampleLandmarks <= 263)%nat as H by (cbn; lia).
  split; [exact H|]. intros M.
  exact (proj2 (proj2 (proj2 (calculateHeadPose_zero (M := M))))
           sampleLandmarks H).
Defined.

Lemma missing_eyes_drowsy_witness :
  DROWSY_EAR_THRESHOLD sampleDetector = lit 0.25 /\
  (length sampleLandmarks <= 163)%nat /\
  forall M : JSMath float,
    exists r d,
      analyzeFaceLandmarks sampleDetector (Some sampleLandmarks) 10
      = Normal (r, d) /\
      eyeAspectRatio r = lit 0 /\ currentState d = drowsy /\
      confidence r = lit 1 /\ (state r = drowsy \/ state r = focused).
Proof.
  assert (DROWSY_EAR_THRESHOLD sampleDetector = lit 0.25) as H1
    by reflexivity.
  assert (length sampleLandmarks <= 163)%nat as H2 by (cbn; lia).
  split; [exact H1|]. split; [exact H2|]. intros M.
  exact (missing_eyes_drowsy (M := M) sampleDetector _ [] 10 H1 (or_introl H2)).
Defined.

Lemma candidate_change_emits_focused_witness :
  determineImmediateState sampleDetector
    (frame_headPose (sampleFrame 25 0 0.35 10))
    (frame_avgEAR (sampleFrame 25 0 0.35 10)) = distracted /\
  currentState sampleDetector = unknown /\
  state (fst (classify sampleDetector
                (frame_headPose (sampleFrame 25 0 0.35 10))
                (frame_avgEAR (sampleFrame 25 0 0.35 10)) sampleLandmarks 10))
  = focused /\
  stateStartTime (snd (classify sampleDetector
                         (frame_headPose (sampleFrame 25 0 0.35 10))
                         (frame_avgEAR (sampleFrame 25 0 0.35 10))
                         sampleLandmarks 10)) = 10%Z.
Proof.
  split; [reflexivity|]. split; [reflexivity|].
  destruct (candidate_change_emits_focused sampleDetector
              (frame_headPose (sampleFrame 25 0 0.35 10))
              (frame_avgEAR (sampleFrame 25 0 0.35 10)) sampleLandmarks 10)
    as (A & B & _).
  - discriminate.
  - intros _. reflexivity.
  - split; [exact A | exact B].
Defined.

Lemma every_state_one_call_away_witness :
  same_config sampleDetector sampleDetector /\
  exists hp ear,
    currentState (snd (classify sampleDetector hp ear sampleLandmarks 10))
    = relaxing.
Proof.
  assert (same_config sampleDetector sampleDetector) as H
    by (repeat split).
  split; [exact H|].
  apply (every_state_one_call_away sampleDetector sampleLandmarks 10 relaxing H).
  discriminate.
Defined.

Lemma detectionHistory_most_recent_witness :
  detectionHistory (Home_initial (N := double)) = [] /\
  map history_state
    (detectionHistory
       (Home_run Home_initial
          (map (fun i => StateChanged (fst i) (snd i)) sampleDetections)))
  = [focused; unknown].
Proof.
  split; [reflexivity|].
  rewrite (detectionHistory_most_recent Home_initial sampleDetections eq_refl).
  reflexivity.
Defined.

Lemma formatTime_mmss_witness :
  (0 <= 125 < 6000)%Z /\ formatTime 125 = "02:05"%string.
Proof.
  assert (0 <= 125 < 6000)%Z as H by lia.
  split; [exact H|]. rewrite (formatTime_mmss 125 H). reflexivity.
Defined.

Lemma completeCalibration_threshold_witness :
  (length sampleCalibration <= 100)%nat /\
  calibration_matches sampleCalibration = 4%nat /\
  completeCalibration sampleCalibration = true /\
  completeCalibration (@nil (CalibrationEntry float)) = false.
Proof.
  assert (length sampleCalibration <= 100)%nat as H by (cbn; lia).
  split; [exact H|]. split; [reflexivity|]. split.
  - rewrite (completeCalibration_threshold sampleCalibration H). reflexivity.
  - rewrite (completeCalibration_threshold []); [reflexivity | cbn; lia].
Defined.

Lemma first_call_emits_focused_witness :
  (0 < DROWSY_TIME_THRESHOLD sampleDetector)%Z /\
  (0 < DISTRACTION_TIME_THRESHOLD sampleDetector)%Z /\
  (0 < RELAXING_TIME_THRESHOLD sampleDetector)%Z /\
  forall M : JSMath float,
    exists r d,
      analyzeFaceLandmarks (reset sampleDetector 5) (Some sampleLandmarks) 10
      = Normal (r, d)
      /\ state r = focused /\ stateStartTime d = 10%Z.
Proof.
  assert (0 < DROWSY_TIME_THRESHOLD sampleDetector)%Z as H1 by reflexivity.
  assert (0 < DISTRACTION_TIME_THRESHOLD sampleDetector)%Z as H2
    by reflexivity.
  assert (0 < RELAXING_TIME_THRESHOLD sampleDetector)%Z as H3 by reflexivity.
  repeat (split; [assumption|]). intros M.
  exact (proj1 (first_call_emits_focused (M := M)) sampleDetector 5%Z _ []
           10%Z H1 H2 H3).
Defined.

